(** * RepoPulse: the forecast and scoring scripts, embedded and verified

    [scripts/daily.py] turns repository telemetry into a dated batch of
    breakout predictions; [scripts/score.py] reconciles the batch written
    seven days earlier with fresh telemetry and appends to the outcome
    ledger.

    Conventions of the embedding.
    - Python [int] is [Z].
    - Python [float] is idealised as a real number ([R]): the formulas are
      those of the source, evaluated exactly.  IEEE rounding, overflow and
      NaN are outside the model.
    - [round(x)] is rounding to the nearest integer with ties to the even
      one, [round(x, n)] the same on the n-th decimal, [int(x)] is
      truncation towards zero.
    - an instant ([datetime]) is a number of microseconds since the epoch;
      a calendar date is a day number; a dated file is keyed by its day.
    - a JSON object read with [.get(key, default)] has an optional field,
      [None] standing for an absent key.
    - an exception is a [Raise] result. *)

From Stdlib Require Import ZArith Reals Lra Lia List String.
From Stdlib Require Import Zfloor.
From stdpp Require Import gmap strings.

Local Open Scope Z_scope.

(** ** Python values and built-ins *)

Module Py.

Inductive exn : Type :=
| ValueError                (* math domain error *)
| HTTPError (url : string)  (* requests: raise_for_status *)
| IndexError.               (* list index out of range *)

Inductive result (A : Type) : Type :=
| Ok (a : A)
| Raise (e : exn).
Arguments Ok {A} a.
Arguments Raise {A} e.

(** Sequencing: the first exception raised ends the computation. *)
#[global] Instance result_ret : MRet result := fun A a => Ok a.
#[global] Instance result_bind : MBind result := fun A B k c =>
  match c with
  | Ok a => k a
  | Raise e => Raise e
  end.

(** [max(a, b)] and [min(a, b)] return the first argument unless the second
    is strictly larger (smaller). *)
Definition max (a b : R) : R := if Rlt_dec a b then b else a.
Definition min (a b : R) : R := if Rlt_dec b a then b else a.

(** [round(x)]: nearest integer, ties to even. *)
Definition round (x : R) : Z :=
  let f := Zfloor x in
  let d := (x - IZR f)%R in
  if Rlt_dec d (1 / 2) then f
  else if Rlt_dec (1 / 2) d then f + 1
  else if Z.even f then f else f + 1.

(** [round(x, n)]: nearest multiple of [10^-n], ties to even. *)
Definition round_to (x : R) (n : nat) : R :=
  (IZR (round (x * 10 ^ n)) / 10 ^ n)%R.

(** [int(x)] on a float: truncation towards zero. *)
Definition int (x : R) : Z :=
  if Rle_dec 0 x then Zfloor x else Zceil x.

(** [math.log10]: a [ValueError] outside the positive reals. *)
Definition log10 (x : R) : result R :=
  if Rlt_dec 0 x then Ok (ln x / ln 10)%R else Raise ValueError.

(** [sum(xs)] of a list of numbers, [0] for the empty list. *)
Definition sum (xs : list R) : R := fold_left Rplus xs 0%R.

End Py.

Import Py (Ok, Raise).

(** ** Records shared by the two scripts *)

(** A telemetry response ([GET /repos/{full_name}]), reduced to the keys the
    scripts read.  The counts and the language are read with [.get]. *)
Record Repo : Type := {
  repo_full_name : string;
  repo_html_url : string;
  repo_stargazers_count : option Z;
  repo_forks_count : option Z;
  repo_open_issues_count : option Z;
  repo_language : option string;
  repo_created_at : Z;
  repo_pushed_at : Z
}.

Record Snapshot : Type := {
  snap_date_utc : Z;
  snap_full_name : string;
  snap_html_url : string;
  snap_stars_now : Z;
  snap_forks_now : Z;
  snap_issues_now : Z;
  snap_language : string;
  snap_created_at : Z;
  snap_pushed_at : Z
}.

Record Features : Type := {
  feat_age_days : R;
  feat_since_push_days : R;
  feat_stars_per_day : R;
  feat_forks_now : Z;
  feat_issues_now : Z;
  feat_language : string
}.

(** The ["model"] entry is read back with [p.get("model", {}).get("type",
    "unknown")]: [None] stands for a record without it. *)
Record Prediction : Type := {
  date_utc : Z;
  full_name : string;
  html_url : string;
  stars_now : Z;
  breakout_threshold_7d : Z;
  p_breakout_7d : R;
  stars_pred_7d : Z;
  stars_pred_low_7d : Z;
  stars_pred_high_7d : Z;
  features : Features;
  model : option string
}.

(** One row of [data/outcomes.csv]. *)
Record Outcome : Type := {
  row_prediction_date_utc : Z;
  row_scored_date_utc : Z;
  row_full_name : string;
  row_html_url : string;
  row_stars_at_prediction : Z;
  row_stars_after_7d : Z;
  row_delta_stars : Z;
  row_breakout_threshold : Z;
  row_breakout_actual : Z;
  row_p_breakout_7d : R;
  row_brier_score : R;
  row_stars_pred_7d : Z;
  row_abs_error_stars : Z;
  row_model : string
}.

Record Summary : Type := {
  sum_prediction_date_utc : Z;
  sum_scored_date_utc : Z;
  sum_n : Z;
  sum_mean_brier : R;
  sum_mean_mae_stars : R
}.

(** The lines of the CSV ledger: [writeheader] and [writerows]. *)
Inductive csv_line : Type :=
| Header
| Row (r : Outcome).

(** The files under the repository root.  [None] for [outcomes_csv] is a
    ledger that does not exist yet. *)
Record Files : Type := {
  snapshots : gmap Z (list Snapshot);
  predictions : gmap Z (list Prediction);
  outcomes_csv : option (list csv_line);
  summaries : gmap Z Summary
}.

(** The telemetry provider: the answer to the one search the forecast
    issues (outer [None]: an HTTP error status; inner [None]: a body without
    ["items"]), and the repositories it serves by full name (absent: an
    HTTP error status). *)
Record GitHub : Type := {
  gh_search : option (option (list string));
  gh_repos : gmap string Repo
}.

Definition microseconds_per_day : Z := 86400 * 1000000.

(** [dt.date()], as a day number. *)
Definition date (now : Z) : Z := now / microseconds_per_day.

(** [timedelta.total_seconds()] of a difference of instants. *)
Definition total_seconds (us : Z) : R := (IZR us / 1000000)%R.

(** ** [scripts/daily.py] *)

Module Daily.

(** [gh_get] on a repository URL: the JSON body, or the exception of
    [raise_for_status]. *)
Definition gh_get (gh : GitHub) (name : string) : Py.result Repo :=
  match gh_repos gh !! name with
  | Some repo => Ok repo
  | None => Raise (Py.HTTPError name)
  end.

(** [gh_get] on the search URL, followed by [search.get("items", [])]. *)
Definition search_items (gh : GitHub) : Py.result (list string) :=
  match gh_search gh with
  | Some body => Ok (default [] body)
  | None => Raise (Py.HTTPError "search/repositories")
  end.

Definition clamp (x lo hi : R) : R := Py.max lo (Py.min hi x).

Definition logistic (z : R) : R := (1 / (1 + exp (- z)))%R.

(** The feature derivation of the loop body. *)
Definition age_days (now created_at : Z) : R :=
  Py.max 1 (total_seconds (now - created_at) / 86400).

Definition since_push_days (now pushed_at : Z) : R :=
  Py.max 0 (total_seconds (now - pushed_at) / 86400).

(** The linear score [z]; the two logarithms are taken left to right. *)
Definition score (stars_per_day since_push : R) (forks_now : Z) : Py.result R :=
  l1 ← Py.log10 (stars_per_day + 0.01);
  l2 ← Py.log10 (IZR forks_now + 1);
  Ok (0.9 * l1 - 0.25 * since_push + 0.15 * l2)%R.

Definition breakout_threshold (stars_now : Z) : Z :=
  Py.int (Py.max 200 (0.5 * IZR stars_now)).

(** The two sub-expressions of the forecast that depend on the probability:
    the growth multiplier of the point estimate and the band before the
    floor and the rounding. *)
Definition growth_multiplier (p_breakout : R) : R := (0.8 + 0.6 * p_breakout)%R.

Definition band_raw (threshold : Z) (p_breakout : R) : R :=
  (0.25 * IZR threshold * (1.0 - p_breakout))%R.

Definition stars_pred (stars_now : Z) (stars_per_day p_breakout : R) : Z :=
  Py.round (IZR stars_now + 7 * stars_per_day * growth_multiplier p_breakout).

Definition band (threshold : Z) (p_breakout : R) : Z :=
  Py.round (Py.max 25 (band_raw threshold p_breakout)).

Definition language_of (repo : Repo) : string :=
  match repo_language repo with
  | Some s => if String.eqb s "" then "Unknown" else s
  | None => "Unknown"
  end.

(** The body of the loop over [repos]: the snapshot and the prediction of
    one repository. *)
Definition forecast (now : Z) (repo : Repo) : Py.result (Snapshot * Prediction) :=
  let today := date now in
  let stars_now := default 0 (repo_stargazers_count repo) in
  let forks_now := default 0 (repo_forks_count repo) in
  let issues_now := default 0 (repo_open_issues_count repo) in
  let language := language_of repo in
  let age := age_days now (repo_created_at repo) in
  let since_push := since_push_days now (repo_pushed_at repo) in
  let stars_per_day := (IZR stars_now / age)%R in
  z ← score stars_per_day since_push forks_now;
  let p_breakout := clamp (logistic z) 0 1 in
  let threshold := breakout_threshold stars_now in
  let pred := stars_pred stars_now stars_per_day p_breakout in
  let b := band threshold p_breakout in
  let low := Z.max 0 (pred - b) in
  let high := pred + b in
  Ok ({| snap_date_utc := today;
         snap_full_name := repo_full_name repo;
         snap_html_url := repo_html_url repo;
         snap_stars_now := stars_now;
         snap_forks_now := forks_now;
         snap_issues_now := issues_now;
         snap_language := language;
         snap_created_at := repo_created_at repo;
         snap_pushed_at := repo_pushed_at repo |},
      {| date_utc := today;
         full_name := repo_full_name repo;
         html_url := repo_html_url repo;
         stars_now := stars_now;
         breakout_threshold_7d := threshold;
         p_breakout_7d := Py.round_to p_breakout 4;
         stars_pred_7d := pred;
         stars_pred_low_7d := low;
         stars_pred_high_7d := high;
         features :=
           {| feat_age_days := Py.round_to age 3;
              feat_since_push_days := Py.round_to since_push 3;
              feat_stars_per_day := Py.round_to stars_per_day 3;
              feat_forks_now := forks_now;
              feat_issues_now := issues_now;
              feat_language := language |};
         model := Some "heuristic_logistic_v1"%string |}).

(** The two loops of [main]: every repository is fetched first, then every
    forecast is computed. *)
Fixpoint fetch_all (gh : GitHub) (items : list string) : Py.result (list Repo) :=
  match items with
  | [] => Ok []
  | name :: rest =>
      repo ← gh_get gh name;
      repos ← fetch_all gh rest;
      Ok (repo :: repos)
  end.

Fixpoint forecast_all (now : Z) (repos : list Repo)
  : Py.result (list Snapshot * list Prediction) :=
  match repos with
  | [] => Ok ([], [])
  | repo :: rest =>
      sp ← forecast now repo;
      sps ← forecast_all now rest;
      Ok (sp.1 :: sps.1, sp.2 :: sps.2)
  end.

(** [main], up to the two dated files it writes (the notification digest
    built from the batch afterwards is not part of the model). *)
Definition main (now : Z) (gh : GitHub) (fs : Files) : Files * Py.result unit :=
  let today := date now in
  match (items ← search_items gh;
         repos ← fetch_all gh items;
         forecast_all now repos) with
  | Ok (snapshot, batch) =>
      ({| snapshots := <[today := snapshot]> (snapshots fs);
          predictions := <[today := batch]> (predictions fs);
          outcomes_csv := outcomes_csv fs;
          summaries := summaries fs |}, Ok tt)
  | Raise e => (fs, Raise e)
  end.

End Daily.

(** ** [scripts/score.py] *)

Module Score.

Definition gh_get (gh : GitHub) (name : string) : Py.result Repo :=
  match gh_repos gh !! name with
  | Some repo => Ok repo
  | None => Raise (Py.HTTPError name)
  end.

Definition brier (p : R) (y : Z) : R := ((p - IZR y) ^ 2)%R.

(** What [main] prints. *)
Inductive message : Type :=
| NoPredictionsFile (target_date : Z)
| Scored (n : Z) (target_date : Z)
| Means (mean_brier mean_mae : R)
| AppendedToLedger
| WroteSummary (target_date : Z).

(** The body of the loop over [preds] after the fetch: the ledger row of
    one prediction, with the two numbers appended to [brier_scores] and
    [abs_errors]. *)
Definition outcome (now target_date : Z) (repo : Repo) (p : Prediction)
  : Outcome * R * Z :=
  let stars_then := default 0 (repo_stargazers_count repo) in
  let stars_at_pred := stars_now p in
  let delta := stars_then - stars_at_pred in
  let threshold := breakout_threshold_7d p in
  let y := if threshold <=? delta then 1 else 0 in
  let prob := p_breakout_7d p in
  let bs := brier prob y in
  let stars_pred := stars_pred_7d p in
  let ae := Z.abs (stars_then - stars_pred) in
  ({| row_prediction_date_utc := target_date;
      row_scored_date_utc := date now;
      row_full_name := full_name p;
      row_html_url := html_url p;
      row_stars_at_prediction := stars_at_pred;
      row_stars_after_7d := stars_then;
      row_delta_stars := delta;
      row_breakout_threshold := threshold;
      row_breakout_actual := y;
      row_p_breakout_7d := prob;
      row_brier_score := Py.round_to bs 6;
      row_stars_pred_7d := stars_pred;
      row_abs_error_stars := ae;
      row_model := default "unknown"%string (model p) |}, bs, ae).

Definition score_one (now target_date : Z) (gh : GitHub) (p : Prediction)
  : Py.result (Outcome * R * Z) :=
  repo ← gh_get gh (full_name p);
  Ok (outcome now target_date repo p).

(** The loop: [rows], [brier_scores] and [abs_errors] in batch order; the
    first failing fetch ends it. *)
Fixpoint score_all (now target_date : Z) (gh : GitHub) (preds : list Prediction)
  : Py.result (list Outcome * list R * list Z) :=
  match preds with
  | [] => Ok ([], [], [])
  | p :: rest =>
      r ← score_one now target_date gh p;
      rs ← score_all now target_date gh rest;
      Ok (r.1.1 :: rs.1.1, r.1.2 :: rs.1.2, r.2 :: rs.2)
  end.

Definition mean_brier (brier_scores : list R) : R :=
  (Py.sum brier_scores / IZR (Z.max 1 (Z.of_nat (length brier_scores))))%R.

Definition mean_mae (abs_errors : list Z) : R :=
  (IZR (fold_left Z.add abs_errors 0%Z) / IZR (Z.max 1 (Z.of_nat (length abs_errors))))%R.

Definition target_date (now : Z) : Z := date (now - 7 * microseconds_per_day).

(** [main]: the files after the run, what was printed, and how the run
    ended.  Opening the ledger for appending creates it; [rows[0]] is read
    before anything is written to it. *)
Definition main (now : Z) (gh : GitHub) (fs : Files)
  : Files * list message * Py.result unit :=
  let target := target_date now in
  match predictions fs !! target with
  | None => (fs, [NoPredictionsFile target], Ok tt)
  | Some preds =>
      match score_all now target gh preds with
      | Raise e => (fs, [], Raise e)
      | Ok (rows, brier_scores, abs_errors) =>
          let mb := mean_brier brier_scores in
          let mm := mean_mae abs_errors in
          let file_exists := outcomes_csv fs in
          let opened := default [] (outcomes_csv fs) in
          match rows with
          | [] =>
              ({| snapshots := snapshots fs;
                  predictions := predictions fs;
                  outcomes_csv := Some opened;
                  summaries := summaries fs |}, [], Raise Py.IndexError)
          | _ :: _ =>
              let header := match file_exists with Some _ => [] | None => [Header] end in
              let n := Z.of_nat (length rows) in
              let summary :=
                {| sum_prediction_date_utc := target;
                   sum_scored_date_utc := date now;
                   sum_n := n;
                   sum_mean_brier := Py.round_to mb 6;
                   sum_mean_mae_stars := Py.round_to mm 3 |} in
              ({| snapshots := snapshots fs;
                  predictions := predictions fs;
                  outcomes_csv := Some (opened ++ header ++ map Row rows);
                  summaries := <[target := summary]> (summaries fs) |},
               [Scored n target; Means mb mm; AppendedToLedger; WroteSummary target],
               Ok tt)
          end
      end
  end.

End Score.

(** ** Concrete runs used below *)

Module Example.

(** Midnight of some day, and telemetry observed at that instant. *)
Definition now : Z := 20000 * microseconds_per_day.

Definition telemetry (name : string) (stars : option Z) (forks : Z) (age : Z) : Repo :=
  {| repo_full_name := name;
     repo_html_url := "https://github.com/" +:+ name;
     repo_stargazers_count := stars;
     repo_forks_count := Some forks;
     repo_open_issues_count := Some 3;
     repo_language := Some "Python"%string;
     repo_created_at := now - age * microseconds_per_day;
     repo_pushed_at := now |}.

(** 1000 stars, 50 forks, created ten days ago, pushed just now. *)
Definition rocket : Repo := telemetry "acme/rocket" (Some 1000) 50 10.

(** 403 stars: half of an odd count. *)
Definition odd : Repo := telemetry "acme/odd" (Some 403) 7 5.


Definition no_files : Files :=
  {| snapshots := ∅; predictions := ∅; outcomes_csv := None; summaries := ∅ |}.

(** A search that finds no repository. *)
Definition quiet : GitHub := {| gh_search := Some (Some []); gh_repos := ∅ |}.

(** What [Daily.main] leaves behind on such a day. *)
Definition empty_batch_files : Files :=
  {| snapshots := <[20000 := []]> ∅;
     predictions := <[20000 := []]> ∅;
     outcomes_csv := None;
     summaries := ∅ |}.

(** Seven days later. *)
Definition later : Z := now + 7 * microseconds_per_day.

Definition prediction (name : string) : Prediction :=
  {| date_utc := 20000;
     full_name := name;
     html_url := "https://github.com/" +:+ name;
     stars_now := 1000;
     breakout_threshold_7d := 500;
     p_breakout_7d := 0.8866%R;
     stars_pred_7d := 1932;
     stars_pred_low_7d := 1907;
     stars_pred_high_7d := 1957;
     features :=
       {| feat_age_days := 10%R;
          feat_since_push_days := 0%R;
          feat_stars_per_day := 100%R;
          feat_forks_now := 50;
          feat_issues_now := 3;
          feat_language := "Python" |};
     model := Some "heuristic_logistic_v1"%string |}.

(** A batch of two; a week later one of the repositories is gone, the other
    has 1600 stars. *)
Definition batch_files : Files :=
  {| snapshots := ∅;
     predictions := <[20000 := [prediction "acme/gone"; prediction "acme/rocket"]]> ∅;
     outcomes_csv := None;
     summaries := ∅ |}.

Definition rocket_later : Repo := telemetry "acme/rocket" (Some 1600) 60 17.

Definition github_later : GitHub :=
  {| gh_search := Some (Some []);
     gh_repos := <["acme/rocket"%string := rocket_later]> ∅ |}.

(** The batch reduced to the repository that is still served. *)
Definition single_batch_files : Files :=
  {| snapshots := ∅;
     predictions := <[20000 := [prediction "acme/rocket"]]> ∅;
     outcomes_csv := None;
     summaries := ∅ |}.

(** A response without the star count. *)
Definition bare : Repo := telemetry "acme/rocket" None 60 17.

Definition github_bare : GitHub :=
  {| gh_search := Some (Some []);
     gh_repos := <["acme/rocket"%string := bare]> ∅ |}.

End Example.

(** ** Fixed-point bounds for the exponential

    The worked example needs the values of [exp] and [ln] to a few
    decimals.  [exp a] is bounded from below by [(1 + a / 2^k) ^ (2^k)],
    computed by [k] squarings on integers scaled by [10^20], each rounded
    down. *)

Module Bounds.

Definition scale : Z := 100000000000000000000.

Fixpoint sq_down (k : nat) (x : Z) : Z :=
  match k with
  | O => x
  | S k' => sq_down k' (x * x / scale)
  end.

(** [1 + (num / den) / 2^k], scaled and rounded down. *)
Definition start (num den : Z) (k : nat) : Z :=
  scale * (den * 2 ^ Z.of_nat k + num) / (den * 2 ^ Z.of_nat k).

Definition exp_floor (num den : Z) (k : nat) : Z := sq_down k (start num den k).

(** The side conditions of a lower bound [lo / scale <= exp (num / den)]. *)
Definition certifies (num den : Z) (k : nat) (lo : Z) : bool :=
  (0 <? den) && (0 <=? start num den k) && (lo <=? exp_floor num den k).

End Bounds.

(** * Properties *)

(** ** The built-ins *)

Section PyFacts.
Local Open Scope R_scope.

Lemma max_Rmax (a b : R) : Py.max a b = Rmax a b.
Proof.
  unfold Py.max, Rmax.
  destruct (Rlt_dec a b), (Rle_dec a b); lra.
Qed.

Lemma max_lower_l (a b : R) : a <= Py.max a b.
Proof. unfold Py.max. destruct (Rlt_dec a b); lra. Qed.

Lemma max_lower_r (a b : R) : b <= Py.max a b.
Proof. unfold Py.max. destruct (Rlt_dec a b); lra. Qed.

Lemma max_floor_case (a b : R) : b <= a -> Py.max a b = a.
Proof. intros H. unfold Py.max. destruct (Rlt_dec a b); lra. Qed.

Lemma min_upper_l (a b : R) : Py.min a b <= a.
Proof. unfold Py.min. destruct (Rlt_dec b a); lra. Qed.

Lemma min_upper_r (a b : R) : Py.min a b <= b.
Proof. unfold Py.min. destruct (Rlt_dec b a); lra. Qed.

(** [round] is one of the two neighbouring integers. *)
Lemma round_cases (x : R) :
  Py.round x = Zfloor x \/ (Py.round x = (Zfloor x + 1)%Z /\ 1 / 2 <= x - IZR (Zfloor x)).
Proof.
  unfold Py.round.
  destruct (Rlt_dec (x - IZR (Zfloor x)) (1 / 2)) as [Hlt | Hge]; [by left |].
  destruct (Rlt_dec (1 / 2) (x - IZR (Zfloor x))); [right; split; [done | lra] |].
  destruct (Z.even (Zfloor x)); [by left | right; split; [done | lra]].
Qed.

Lemma round_lower (a : Z) (x : R) : IZR a <= x -> (a <= Py.round x)%Z.
Proof.
  intros H. pose proof (Zfloor_lub a x H) as Hf.
  destruct (round_cases x) as [-> | [-> _]]; lia.
Qed.

Lemma round_upper (b : Z) (x : R) : x <= IZR b -> (Py.round x <= b)%Z.
Proof.
  intros H. pose proof (Zfloor_bound x) as [Hlo Hhi].
  assert (Hfb : (Zfloor x <= b)%Z) by (apply le_IZR; lra).
  destruct (round_cases x) as [-> | [-> Hd]]; [done |].
  destruct (Z.eq_dec (Zfloor x) b) as [Heq | Hne]; [| lia].
  rewrite Heq in Hd. lra.
Qed.

(** A real strictly within a half of an integer rounds to it. *)
Lemma round_near (n : Z) (x : R) :
  IZR n - 1 / 2 < x < IZR n + 1 / 2 -> Py.round x = n.
Proof.
  intros [Hlo Hhi]. pose proof (Zfloor_bound x) as [Hf1 Hf2].
  assert (Hcase : Zfloor x = n \/ Zfloor x = (n - 1)%Z).
  { assert (IZR (n - 1) <= x) as H1 by (rewrite minus_IZR; lra).
    apply Zfloor_lub in H1.
    assert ((Zfloor x < n + 1)%Z) by (apply lt_IZR; rewrite plus_IZR; lra).
    lia. }
  unfold Py.round.
  destruct Hcase as [Hc | Hc]; rewrite Hc in *.
  - destruct (Rlt_dec (x - IZR n) (1 / 2)); [done | lra].
  - rewrite minus_IZR in *.
    destruct (Rlt_dec (x - (IZR n - 1)) (1 / 2)); [lra |].
    destruct (Rlt_dec (1 / 2) (x - (IZR n - 1))); [lia | lra].
Qed.

Lemma round_IZR (n : Z) : Py.round (IZR n) = n.
Proof. apply round_near. lra. Qed.

Lemma round_error (x : R) : Rabs (IZR (Py.round x) - x) <= 1 / 2.
Proof.
  pose proof (Zfloor_bound x) as [Hlo Hhi].
  unfold Py.round.
  destruct (Rlt_dec (x - IZR (Zfloor x)) (1 / 2)).
  { apply Rabs_le. lra. }
  destruct (Rlt_dec (1 / 2) (x - IZR (Zfloor x))).
  { rewrite plus_IZR. apply Rabs_le. lra. }
  destruct (Z.even (Zfloor x)); [| rewrite plus_IZR]; apply Rabs_le; lra.
Qed.

Lemma pow10_pos (n : nat) : 0 < 10 ^ n.
Proof. apply pow_lt. lra. Qed.

(** [round(x, n)] stays between two integers that bracket [x]. *)
Lemma round_to_between (a b : Z) (x : R) (n : nat) :
  IZR a <= x <= IZR b -> IZR a <= Py.round_to x n <= IZR b.
Proof.
  intros [Ha Hb]. pose proof (pow10_pos n) as Hp.
  unfold Py.round_to.
  assert (H10 : 10 ^ n = IZR (10 ^ Z.of_nat n)).
  { rewrite pow_IZR. done. }
  assert (Hlo : (a * 10 ^ Z.of_nat n <= Py.round (x * 10 ^ n))%Z).
  { apply round_lower. rewrite mult_IZR, <- H10. nra. }
  assert (Hhi : (Py.round (x * 10 ^ n) <= b * 10 ^ Z.of_nat n)%Z).
  { apply round_upper. rewrite mult_IZR, <- H10. nra. }
  apply IZR_le in Hlo, Hhi. rewrite mult_IZR, <- H10 in Hlo, Hhi.
  split; apply Rmult_le_reg_r with (r := 10 ^ n); try lra;
    unfold Rdiv; rewrite Rmult_assoc, Rinv_l; lra.
Qed.

Lemma round_to_error (x : R) (n : nat) :
  Rabs (Py.round_to x n - x) <= / (2 * 10 ^ n).
Proof.
  pose proof (pow10_pos n) as Hp.
  pose proof (round_error (x * 10 ^ n)) as He.
  unfold Py.round_to.
  replace (IZR (Py.round (x * 10 ^ n)) / 10 ^ n - x)
    with ((IZR (Py.round (x * 10 ^ n)) - x * 10 ^ n) * / 10 ^ n) by (field; lra).
  rewrite Rabs_mult, (Rabs_pos_eq (/ 10 ^ n)).
  2: { left. by apply Rinv_0_lt_compat. }
  rewrite Rinv_mult.
  apply Rmult_le_compat_r with (r := / 10 ^ n) in He.
  2: { left. by apply Rinv_0_lt_compat. }
  lra.
Qed.

Lemma int_nonneg (x : R) : 0 <= x -> Py.int x = Zfloor x.
Proof. intros H. unfold Py.int. destruct (Rle_dec 0 x); [done | lra]. Qed.

Lemma Zfloor_half (s : Z) : Zfloor (0.5 * IZR s) = (s / 2)%Z.
Proof.
  apply Zfloor_eq.
  pose proof (Z.div_mod s 2 ltac:(lia)) as Hdm.
  pose proof (Z.mod_pos_bound s 2 ltac:(lia)) as Hm.
  assert (H1 : (2 * (s / 2) <= s)%Z) by lia.
  assert (H2 : (s < 2 * (s / 2) + 2)%Z) by lia.
  apply IZR_le in H1. apply IZR_lt in H2.
  rewrite ?plus_IZR, ?mult_IZR in *. lra.
Qed.

End PyFacts.

(** ** The forecast *)

Section ForecastFacts.
Local Open Scope R_scope.

Lemma age_days_floor (now created_at : Z) : 1 <= Daily.age_days now created_at.
Proof. apply max_lower_l. Qed.

Lemma since_push_days_floor (now pushed_at : Z) :
  0 <= Daily.since_push_days now pushed_at.
Proof. apply max_lower_l. Qed.

Lemma logistic_range (z : R) : 0 < Daily.logistic z < 1.
Proof.
  unfold Daily.logistic. pose proof (exp_pos (- z)) as He.
  split.
  - apply Rdiv_lt_0_compat; lra.
  - apply Rmult_lt_reg_r with (r := 1 + exp (- z)); [lra |].
    unfold Rdiv. rewrite Rmult_assoc, Rinv_l; lra.
Qed.

Lemma clamp_range (x : R) : 0 <= Daily.clamp x 0 1 <= 1.
Proof.
  unfold Daily.clamp. split; [apply max_lower_l |].
  pose proof (min_upper_l 1 x). unfold Py.max.
  destruct (Rlt_dec 0 (Py.min 1 x)); lra.
Qed.

(** On a value of the logistic function the clamp changes nothing. *)
Lemma clamp_logistic (z : R) : Daily.clamp (Daily.logistic z) 0 1 = Daily.logistic z.
Proof.
  pose proof (logistic_range z) as [H0 H1].
  unfold Daily.clamp, Py.max, Py.min.
  destruct (Rlt_dec (Daily.logistic z) 1); [| lra].
  destruct (Rlt_dec 0 (Daily.logistic z)); lra.
Qed.

Lemma stars_per_day_nonneg (stars : Z) (age : R) :
  (0 <= stars)%Z -> 1 <= age -> 0 <= IZR stars / age.
Proof.
  intros Hs Ha. apply IZR_le in Hs.
  apply Rmult_le_pos; [done |]. left. apply Rinv_0_lt_compat. lra.
Qed.

(** The score is defined on non-negative velocities and fork counts. *)
Lemma score_defined (stars_per_day since_push : R) (forks_now : Z) :
  0 <= stars_per_day -> (0 <= forks_now)%Z ->
  Daily.score stars_per_day since_push forks_now =
    Ok (0.9 * (ln (stars_per_day + 0.01) / ln 10) - 0.25 * since_push
        + 0.15 * (ln (IZR forks_now + 1) / ln 10)).
Proof.
  intros Hs Hf. apply IZR_le in Hf.
  unfold Daily.score, Py.log10.
  destruct (Rlt_dec 0 (stars_per_day + 0.01)); [| lra].
  destruct (Rlt_dec 0 (IZR forks_now + 1)); [| lra].
  reflexivity.
Qed.

(** What [forecast] returns on telemetry with non-negative counts, field by
    field. *)
Lemma forecast_fields (now : Z) (repo : Repo) :
  let stars := default 0%Z (repo_stargazers_count repo) in
  let forks := default 0%Z (repo_forks_count repo) in
  let spd := IZR stars / Daily.age_days now (repo_created_at repo) in
  (0 <= stars)%Z -> (0 <= forks)%Z ->
  exists z s p,
    Daily.score spd (Daily.since_push_days now (repo_pushed_at repo)) forks = Ok z
    /\ Daily.forecast now repo = Ok (s, p)
    /\ snap_stars_now s = stars
    /\ stars_now p = stars
    /\ breakout_threshold_7d p = Daily.breakout_threshold stars
    /\ p_breakout_7d p = Py.round_to (Daily.clamp (Daily.logistic z) 0 1) 4
    /\ stars_pred_7d p = Daily.stars_pred stars spd (Daily.clamp (Daily.logistic z) 0 1)
    /\ stars_pred_low_7d p =
         Z.max 0 (stars_pred_7d p
                  - Daily.band (breakout_threshold_7d p) (Daily.clamp (Daily.logistic z) 0 1))
    /\ stars_pred_high_7d p =
         (stars_pred_7d p
          + Daily.band (breakout_threshold_7d p) (Daily.clamp (Daily.logistic z) 0 1))%Z.
Proof.
  intros stars forks spd Hs Hf.
  pose proof (age_days_floor now (repo_created_at repo)) as Ha.
  pose proof (stars_per_day_nonneg stars _ Hs Ha) as Hspd.
  pose proof (score_defined spd (Daily.since_push_days now (repo_pushed_at repo))
                forks Hspd Hf) as Hz.
  eexists _, _, _. split; [exact Hz |].
  unfold Daily.forecast. fold stars forks. fold spd. rewrite Hz. cbn.
  split; [reflexivity |]. cbn. repeat split; reflexivity.
Qed.

Lemma breakout_threshold_floor (stars : Z) :
  Daily.breakout_threshold stars = Z.max 200 (stars / 2).
Proof.
  unfold Daily.breakout_threshold, Py.max.
  destruct (Rlt_dec 200 (0.5 * IZR stars)) as [Hgt | Hle].
  - rewrite int_nonneg by lra. rewrite Zfloor_half.
    assert (200 <= stars / 2)%Z; [| lia].
    rewrite <- Zfloor_half. apply Zfloor_lub. lra.
  - rewrite int_nonneg by lra. rewrite ZfloorZ.
    assert (stars <= 400)%Z by (apply le_IZR; lra).
    assert (stars / 2 <= 200)%Z by (apply Z.div_le_upper_bound; lia).
    lia.
Qed.

Lemma band_floor (threshold : Z) (p : R) : (25 <= Daily.band threshold p)%Z.
Proof. unfold Daily.band. apply round_lower. apply max_lower_l. Qed.

Lemma stars_pred_nonneg (stars : Z) (spd p : R) :
  (0 <= stars)%Z -> 0 <= spd -> 0 <= p <= 1 ->
  (0 <= Daily.stars_pred stars spd p)%Z.
Proof.
  intros Hs Hspd Hp. apply IZR_le in Hs.
  unfold Daily.stars_pred, Daily.growth_multiplier.
  apply round_lower.
  assert (0 <= spd * (0.8 + 0.6 * p)) by (apply Rmult_le_pos; lra).
  lra.
Qed.

End ForecastFacts.

(** ** Claims about the forecast *)

Section ForecastClaims.
Local Open Scope R_scope.

(** C1, as the code has it: on telemetry with non-negative counts the
    forecast is produced and its [breakout_threshold_7d] is
    [max(200, floor(0.5 * stars_now))] (the half is truncated, not rounded);
    so it is at least 200 and at least [0.5 * stars_now - 0.5]. *)
Theorem breakout_threshold_truncates (now : Z) (repo : Repo) :
  (0 <= default 0 (repo_stargazers_count repo))%Z ->
  (0 <= default 0 (repo_forks_count repo))%Z ->
  exists s p,
    Daily.forecast now repo = Ok (s, p)
    /\ breakout_threshold_7d p = Z.max 200 (stars_now p / 2)
    /\ (200 <= breakout_threshold_7d p)%Z
    /\ 0.5 * IZR (stars_now p) - 0.5 <= IZR (breakout_threshold_7d p).
Proof.
  intros Hs Hf.
  destruct (forecast_fields now repo Hs Hf)
    as (z & s & p & _ & Hrun & _ & Hstars & Hthr & _).
  exists s, p. split; [exact Hrun |].
  rewrite Hthr, Hstars, breakout_threshold_floor.
  set (n := default 0%Z (repo_stargazers_count repo)).
  split; [reflexivity |]. split; [lia |].
  pose proof (Z.div_mod n 2 ltac:(lia)) as Hdm.
  pose proof (Z.mod_pos_bound n 2 ltac:(lia)) as Hm.
  assert (Hz : (n - 1 <= 2 * Z.max 200 (n / 2))%Z) by lia.
  apply IZR_le in Hz. rewrite mult_IZR, minus_IZR in Hz. lra.
Qed.

Lemma breakout_threshold_truncates_witness :
  exists s p,
    Daily.forecast Example.now Example.odd = Ok (s, p)
    /\ breakout_threshold_7d p = Z.max 200 (stars_now p / 2)
    /\ (200 <= breakout_threshold_7d p)%Z
    /\ 0.5 * IZR (stars_now p) - 0.5 <= IZR (breakout_threshold_7d p).
Proof.
  apply (breakout_threshold_truncates Example.now Example.odd); simpl; lia.
Defined.

(** C1 as stated fails at [stars_now = 403]: the prediction's threshold is
    201, while [max(200, round(0.5 * 403))] is 202, and 201 is below
    [0.5 * 403]. *)
Lemma breakout_threshold_not_rounded :
  exists s p,
    Daily.forecast Example.now Example.odd = Ok (s, p)
    /\ stars_now p = 403%Z
    /\ breakout_threshold_7d p = 201%Z
    /\ Z.max 200 (Py.round (0.5 * IZR (stars_now p))) = 202%Z
    /\ IZR (breakout_threshold_7d p) < 0.5 * IZR (stars_now p).
Proof.
  destruct (forecast_fields Example.now Example.odd)
    as (z & s & p & _ & Hrun & _ & Hstars & Hthr & _); [simpl; lia .. |].
  exists s, p. split; [exact Hrun |].
  simpl in Hstars, Hthr. rewrite Hthr, Hstars, breakout_threshold_floor.
  split; [reflexivity |]. split; [reflexivity |]. split.
  - assert (Hr : Py.round (0.5 * 403) = 202%Z); [| rewrite Hr; reflexivity].
    unfold Py.round. rewrite Zfloor_half.
    change (403 / 2)%Z with 201%Z.
    destruct (Rlt_dec (0.5 * 403 - 201) (1 / 2)); [lra |].
    destruct (Rlt_dec (1 / 2) (0.5 * 403 - 201)); [lra |].
    reflexivity.
  - change (Z.max 200 (403 / 2)) with 201%Z. lra.
Qed.

(** C2: on telemetry with non-negative counts the forecast is produced, the
    probability the model computes lies in [[0, 1]], and so does the
    [p_breakout_7d] it records (the same number rounded to four decimals). *)
Theorem p_breakout_in_unit_interval (now : Z) (repo : Repo) :
  (0 <= default 0 (repo_stargazers_count repo))%Z ->
  (0 <= default 0 (repo_forks_count repo))%Z ->
  exists z s p,
    Daily.score (IZR (default 0%Z (repo_stargazers_count repo))
                 / Daily.age_days now (repo_created_at repo))
                (Daily.since_push_days now (repo_pushed_at repo))
                (default 0%Z (repo_forks_count repo)) = Ok z
    /\ Daily.forecast now repo = Ok (s, p)
    /\ 0 <= Daily.clamp (Daily.logistic z) 0 1 <= 1
    /\ p_breakout_7d p = Py.round_to (Daily.clamp (Daily.logistic z) 0 1) 4
    /\ 0 <= p_breakout_7d p <= 1.
Proof.
  intros Hs Hf.
  destruct (forecast_fields now repo Hs Hf)
    as (z & s & p & Hz & Hrun & _ & _ & _ & Hp & _).
  exists z, s, p. pose proof (clamp_range (Daily.logistic z)) as Hc.
  repeat split; try tauto; rewrite Hp;
    apply (round_to_between 0 1); exact Hc.
Qed.

Lemma p_breakout_in_unit_interval_witness :
  exists z s p,
    Daily.score (IZR (default 0%Z (repo_stargazers_count Example.rocket))
                 / Daily.age_days Example.now (repo_created_at Example.rocket))
                (Daily.since_push_days Example.now (repo_pushed_at Example.rocket))
                (default 0%Z (repo_forks_count Example.rocket)) = Ok z
    /\ Daily.forecast Example.now Example.rocket = Ok (s, p)
    /\ 0 <= Daily.clamp (Daily.logistic z) 0 1 <= 1
    /\ p_breakout_7d p = Py.round_to (Daily.clamp (Daily.logistic z) 0 1) 4
    /\ 0 <= p_breakout_7d p <= 1.
Proof.
  apply (p_breakout_in_unit_interval Example.now Example.rocket); simpl; lia.
Defined.

(** C3: on telemetry with non-negative counts the forecast is produced with
    [stars_pred_low_7d <= stars_pred_7d <= stars_pred_high_7d] and
    [stars_pred_low_7d >= 0]. *)
Theorem forecast_interval_ordered (now : Z) (repo : Repo) :
  (0 <= default 0 (repo_stargazers_count repo))%Z ->
  (0 <= default 0 (repo_forks_count repo))%Z ->
  exists s p,
    Daily.forecast now repo = Ok (s, p)
    /\ (stars_pred_low_7d p <= stars_pred_7d p <= stars_pred_high_7d p)%Z
    /\ (0 <= stars_pred_low_7d p)%Z.
Proof.
  intros Hs Hf.
  destruct (forecast_fields now repo Hs Hf)
    as (z & s & p & _ & Hrun & _ & _ & _ & _ & Hpred & Hlow & Hhigh).
  exists s, p. split; [exact Hrun |].
  pose proof (band_floor (breakout_threshold_7d p)
                (Daily.clamp (Daily.logistic z) 0 1)) as Hb.
  assert (Hnn : (0 <= stars_pred_7d p)%Z).
  { rewrite Hpred. apply stars_pred_nonneg; [exact Hs | | apply clamp_range].
    apply stars_per_day_nonneg; [exact Hs | apply age_days_floor]. }
  rewrite Hlow, Hhigh. lia.
Qed.

Lemma forecast_interval_ordered_witness :
  exists s p,
    Daily.forecast Example.now Example.rocket = Ok (s, p)
    /\ (stars_pred_low_7d p <= stars_pred_7d p <= stars_pred_high_7d p)%Z
    /\ (0 <= stars_pred_low_7d p)%Z.
Proof.
  apply (forecast_interval_ordered Example.now Example.rocket); simpl; lia.
Defined.

End ForecastClaims.

Section Monotonicity.
Local Open Scope R_scope.

Lemma round_mono (x y : R) : x <= y -> (Py.round x <= Py.round y)%Z.
Proof.
  intros Hxy. pose proof (Zfloor_le x y Hxy) as Hf.
  destruct (Z.eq_dec (Zfloor x) (Zfloor y)) as [Heq | Hne].
  - unfold Py.round. rewrite Heq.
    destruct (Rlt_dec (x - IZR (Zfloor y)) (1 / 2)),
             (Rlt_dec (y - IZR (Zfloor y)) (1 / 2)),
             (Rlt_dec (1 / 2) (x - IZR (Zfloor y))),
             (Rlt_dec (1 / 2) (y - IZR (Zfloor y)));
      try lra; try lia; destruct (Z.even (Zfloor y)); lia.
  - destruct (round_cases x) as [Hx | [Hx _]], (round_cases y) as [Hy | [Hy _]]; lia.
Qed.

Lemma threshold_positive (stars : Z) : 0 < IZR (Daily.breakout_threshold stars).
Proof.
  rewrite breakout_threshold_floor. apply IZR_lt. lia.
Qed.

(** C8: with the star count (hence the threshold) fixed, a larger
    probability gives a strictly smaller band before the floor and the
    rounding, and a strictly larger growth multiplier; the band itself never
    widens, and once the floor of 25 is reached it stays at 25. *)
Theorem band_narrows_growth_rises (stars : Z) (p1 p2 : R) :
  p1 < p2 ->
  let threshold := Daily.breakout_threshold stars in
  Daily.band_raw threshold p2 < Daily.band_raw threshold p1
  /\ Daily.growth_multiplier p1 < Daily.growth_multiplier p2
  /\ (Daily.band threshold p2 <= Daily.band threshold p1)%Z
  /\ (Daily.band_raw threshold p1 <= 25 ->
      Daily.band threshold p1 = 25%Z /\ Daily.band threshold p2 = 25%Z).
Proof.
  intros Hp threshold.
  pose proof (threshold_positive stars) as Ht. fold threshold in Ht.
  assert (Hraw : Daily.band_raw threshold p2 < Daily.band_raw threshold p1).
  { unfold Daily.band_raw. nra. }
  split; [exact Hraw |].
  split; [unfold Daily.growth_multiplier; lra |].
  split.
  - unfold Daily.band. apply round_mono. rewrite !max_Rmax.
    apply Rle_max_compat_l. lra.
  - intros Hfloor. unfold Daily.band.
    rewrite !max_floor_case by lra. split; apply round_IZR.
Qed.

Lemma band_narrows_growth_rises_witness :
  let threshold := Daily.breakout_threshold 1000 in
  Daily.band_raw threshold 0.9 < Daily.band_raw threshold 0.5
  /\ Daily.growth_multiplier 0.5 < Daily.growth_multiplier 0.9
  /\ (Daily.band threshold 0.9 <= Daily.band threshold 0.5)%Z
  /\ (Daily.band_raw threshold 0.5 <= 25 ->
      Daily.band threshold 0.5 = 25%Z /\ Daily.band threshold 0.9 = 25%Z).
Proof.
  apply (band_narrows_growth_rises 1000 0.5 0.9). lra.
Defined.

End Monotonicity.

(** ** The scoring run *)

Section ScoringFacts.
Local Open Scope R_scope.

Lemma score_one_found (now target : Z) (gh : GitHub) (p : Prediction) (repo : Repo) :
  gh_repos gh !! full_name p = Some repo ->
  Score.score_one now target gh p = Ok (Score.outcome now target repo p).
Proof.
  intros H. unfold Score.score_one, Score.gh_get. rewrite H. reflexivity.
Qed.

Lemma score_one_missing (now target : Z) (gh : GitHub) (p : Prediction) :
  gh_repos gh !! full_name p = None ->
  Score.score_one now target gh p = Raise (Py.HTTPError (full_name p)).
Proof.
  intros H. unfold Score.score_one, Score.gh_get. rewrite H. reflexivity.
Qed.

(** One missing repository anywhere in the batch makes the loop raise, at
    the first such repository. *)
Lemma score_all_missing (now target : Z) (gh : GitHub) (preds : list Prediction) :
  Exists (fun p => gh_repos gh !! full_name p = None) preds ->
  exists name,
    Score.score_all now target gh preds = Raise (Py.HTTPError name)
    /\ gh_repos gh !! name = None.
Proof.
  induction preds as [| p rest IH]; intros Hex.
  - inversion Hex.
  - destruct (gh_repos gh !! full_name p) as [repo |] eqn:Hp.
    + assert (Hrest : Exists (fun q => gh_repos gh !! full_name q = None) rest).
      { inversion Hex as [? ? Hhd | ? ? Htl]; subst; [congruence | exact Htl]. }
      destruct (IH Hrest) as (name & Hrun & Hname).
      exists name. split; [| exact Hname].
      cbn [Score.score_all]. rewrite (score_one_found _ _ _ _ _ Hp). cbn.
      rewrite Hrun. reflexivity.
    + exists (full_name p). split; [| exact Hp].
      cbn [Score.score_all]. rewrite (score_one_missing _ _ _ _ Hp). reflexivity.
Qed.

(** With every repository served, the loop returns one row per prediction,
    in batch order. *)
Lemma score_all_found (now target : Z) (gh : GitHub) (preds : list Prediction) :
  Forall (fun p => is_Some (gh_repos gh !! full_name p)) preds ->
  exists rows bss aes,
    Score.score_all now target gh preds = Ok (rows, bss, aes)
    /\ Forall2 (fun p row => exists repo,
                  gh_repos gh !! full_name p = Some repo
                  /\ row = (Score.outcome now target repo p).1.1) preds rows.
Proof.
  induction preds as [| p rest IH]; intros Hall.
  - exists [], [], []. split; [reflexivity | constructor].
  - inversion Hall as [| ? ? [repo Hp] Hrest]; subst.
    destruct (IH Hrest) as (rows & bss & aes & Hrun & Hrows).
    eexists _, _, _. split.
    + cbn [Score.score_all]. rewrite (score_one_found _ _ _ _ _ Hp). cbn.
      rewrite Hrun. cbn. reflexivity.
    + constructor; [| exact Hrows]. exists repo. split; [exact Hp | reflexivity].
Qed.

(** A non-empty batch whose repositories are all served is scored to the
    end: the rows are appended to the ledger (after the header when the
    ledger is new) and the summary of the date is written. *)
Lemma main_completes (now : Z) (gh : GitHub) (fs : Files) (preds : list Prediction) :
  predictions fs !! Score.target_date now = Some preds ->
  preds <> [] ->
  Forall (fun p => is_Some (gh_repos gh !! full_name p)) preds ->
  exists fs' out rows summary,
    Score.main now gh fs = (fs', out, Ok tt)
    /\ Forall2 (fun p row => exists repo,
                  gh_repos gh !! full_name p = Some repo
                  /\ row = (Score.outcome now (Score.target_date now) repo p).1.1)
               preds rows
    /\ outcomes_csv fs' =
         Some (default [] (outcomes_csv fs)
               ++ match outcomes_csv fs with Some _ => [] | None => [Header] end
               ++ map Row rows)
    /\ summaries fs' = <[Score.target_date now := summary]> (summaries fs)
    /\ sum_n summary = Z.of_nat (length preds).
Proof.
  intros Hfile Hne Hall.
  destruct (score_all_found now (Score.target_date now) gh preds Hall)
    as (rows & bss & aes & Hrun & Hrows).
  pose proof (Forall2_length _ _ _ Hrows) as Hlen.
  unfold Score.main. rewrite Hfile, Hrun.
  destruct rows as [| row rows'].
  { destruct preds; [done | discriminate Hlen]. }
  eexists _, _, (row :: rows'), _.
  split; [reflexivity |]. split; [exact Hrows |].
  cbn. split; [reflexivity |]. split; [reflexivity |].
  rewrite Hlen. reflexivity.
Qed.

End ScoringFacts.

(** ** Claims about the scoring run *)

Section ScoringClaims.
Local Open Scope R_scope.

(** C9: when no prediction file exists for the target date (now minus seven
    days), [main] leaves every file as it was (nothing appended to the
    ledger, no summary written), prints the one line that names the missing
    batch, and returns normally. *)
Theorem missing_batch_is_noop (now : Z) (gh : GitHub) (fs : Files) :
  predictions fs !! Score.target_date now = None ->
  Score.main now gh fs = (fs, [Score.NoPredictionsFile (Score.target_date now)], Ok tt).
Proof.
  intros H. unfold Score.main. rewrite H. reflexivity.
Qed.

Lemma missing_batch_is_noop_witness :
  Score.main Example.later Example.quiet Example.no_files
  = (Example.no_files,
     [Score.NoPredictionsFile (Score.target_date Example.later)], Ok tt).
Proof.
  apply (missing_batch_is_noop Example.later Example.quiet Example.no_files).
  reflexivity.
Defined.

(** C4, at the failing input: a day on which the search finds nothing
    leaves an empty batch; scoring it computes both means as zero, then
    reads [rows[0]] and ends with [IndexError]: the ledger has been created
    empty and no summary is written. *)
Theorem empty_batch_crashes :
  Daily.main Example.now Example.quiet Example.no_files
    = (Example.empty_batch_files, Ok tt)
  /\ Score.mean_brier [] = 0
  /\ Score.mean_mae [] = 0
  /\ Score.main Example.later Example.quiet Example.empty_batch_files
     = ({| snapshots := snapshots Example.empty_batch_files;
           predictions := predictions Example.empty_batch_files;
           outcomes_csv := Some [];
           summaries := ∅ |}, [], Raise Py.IndexError).
Proof.
  split; [reflexivity |].
  split; [unfold Score.mean_brier, Py.sum; simpl; lra |].
  split; [unfold Score.mean_mae; simpl; lra |].
  reflexivity.
Qed.

(** C5, as the code has it: a repository of the batch that the provider
    does not serve ends the run with the HTTP error of its fetch; the files
    are left as they were (no row of the batch is appended, no summary is
    written) and nothing is printed. *)
Theorem missing_repository_fails_run
    (now : Z) (gh : GitHub) (fs : Files) (preds : list Prediction) :
  predictions fs !! Score.target_date now = Some preds ->
  Exists (fun p => gh_repos gh !! full_name p = None) preds ->
  exists name,
    gh_repos gh !! name = None
    /\ Score.main now gh fs = (fs, [], Raise (Py.HTTPError name)).
Proof.
  intros Hfile Hex.
  destruct (score_all_missing now (Score.target_date now) gh preds Hex)
    as (name & Hrun & Hname).
  exists name. split; [exact Hname |].
  unfold Score.main. rewrite Hfile, Hrun. reflexivity.
Qed.

Lemma missing_repository_fails_run_witness :
  exists name,
    gh_repos Example.github_later !! name = None
    /\ Score.main Example.later Example.github_later Example.batch_files
       = (Example.batch_files, [], Raise (Py.HTTPError name)).
Proof.
  apply (missing_repository_fails_run Example.later Example.github_later
           Example.batch_files
           [Example.prediction "acme/gone"; Example.prediction "acme/rocket"]).
  - reflexivity.
  - apply Exists_cons_hd. reflexivity.
Defined.

(** C5 as stated fails on a batch of two whose first repository is gone and
    whose second is served: the run raises, the second repository is not
    scored, the ledger is not created and no summary exists. *)
Lemma missing_repository_aborts_batch :
  gh_repos Example.github_later !! "acme/gone"%string = None
  /\ gh_repos Example.github_later !! "acme/rocket"%string = Some Example.rocket_later
  /\ exists fs',
       Score.main Example.later Example.github_later Example.batch_files
         = (fs', [], Raise (Py.HTTPError "acme/gone"))
       /\ outcomes_csv fs' = None
       /\ summaries fs' !! Score.target_date Example.later = None.
Proof.
  split; [reflexivity |]. split; [reflexivity |].
  exists Example.batch_files.
  split; [| split; reflexivity].
  unfold Score.main.
  change (predictions Example.batch_files !! Score.target_date Example.later)
    with (Some [Example.prediction "acme/gone"; Example.prediction "acme/rocket"]).
  cbn [Score.score_all].
  rewrite (score_one_missing _ _ _ (Example.prediction "acme/gone")) by reflexivity.
  reflexivity.
Qed.

End ScoringClaims.

Section OutcomeClaims.
Local Open Scope R_scope.

(** C6, as the code has it: for a prediction whose repository is served,
    the ledger row has [delta_stars = stars_after_7d - stars_now],
    [breakout_actual] is 1 exactly when [delta_stars >=
    breakout_threshold_7d] and 0 otherwise, [abs_error_stars =
    |stars_after_7d - stars_pred_7d|], and [brier_score] is
    [(p_breakout_7d - breakout_actual)^2] rounded to six decimals (within
    [5e-7] of the square); the unrounded square is what enters the mean. *)
Theorem outcome_row_fields
    (now target : Z) (gh : GitHub) (p : Prediction) (repo : Repo) :
  gh_repos gh !! full_name p = Some repo ->
  exists row bs ae,
    Score.score_one now target gh p = Ok (row, bs, ae)
    /\ row_stars_after_7d row = default 0%Z (repo_stargazers_count repo)
    /\ row_delta_stars row = (row_stars_after_7d row - stars_now p)%Z
    /\ (row_breakout_actual row = 1%Z \/ row_breakout_actual row = 0%Z)
    /\ (row_breakout_actual row = 1%Z
        <-> (breakout_threshold_7d p <= row_delta_stars row)%Z)
    /\ bs = (p_breakout_7d p - IZR (row_breakout_actual row)) ^ 2
    /\ row_brier_score row = Py.round_to bs 6
    /\ Rabs (row_brier_score row
             - (p_breakout_7d p - IZR (row_breakout_actual row)) ^ 2)
       <= / (2 * 10 ^ 6)
    /\ row_abs_error_stars row = Z.abs (row_stars_after_7d row - stars_pred_7d p)
    /\ ae = row_abs_error_stars row.
Proof.
  intros Hrepo. eexists _, _, _.
  split; [apply score_one_found; exact Hrepo |].
  unfold Score.outcome. cbn.
  set (delta := (default 0 (repo_stargazers_count repo) - stars_now p)%Z).
  repeat split; try reflexivity.
  - destruct (Z.leb_spec (breakout_threshold_7d p) delta); [by left | by right].
  - destruct (Z.leb_spec (breakout_threshold_7d p) delta); [done | discriminate].
  - destruct (Z.leb_spec (breakout_threshold_7d p) delta); [done | lia].
  - apply round_to_error.
Qed.

Lemma outcome_row_fields_witness :
  exists row bs ae,
    Score.score_one Example.later 20000 Example.github_later
      (Example.prediction "acme/rocket") = Ok (row, bs, ae)
    /\ row_stars_after_7d row
       = default 0%Z (repo_stargazers_count Example.rocket_later)
    /\ row_delta_stars row
       = (row_stars_after_7d row - stars_now (Example.prediction "acme/rocket"))%Z
    /\ (row_breakout_actual row = 1%Z \/ row_breakout_actual row = 0%Z)
    /\ (row_breakout_actual row = 1%Z
        <-> (breakout_threshold_7d (Example.prediction "acme/rocket")
             <= row_delta_stars row)%Z)
    /\ bs = (p_breakout_7d (Example.prediction "acme/rocket")
             - IZR (row_breakout_actual row)) ^ 2
    /\ row_brier_score row = Py.round_to bs 6
    /\ Rabs (row_brier_score row
             - (p_breakout_7d (Example.prediction "acme/rocket")
                - IZR (row_breakout_actual row)) ^ 2)
       <= / (2 * 10 ^ 6)
    /\ row_abs_error_stars row
       = Z.abs (row_stars_after_7d row
                - stars_pred_7d (Example.prediction "acme/rocket"))
    /\ ae = row_abs_error_stars row.
Proof.
  apply (outcome_row_fields Example.later 20000 Example.github_later
           (Example.prediction "acme/rocket") Example.rocket_later).
  reflexivity.
Defined.

(** C6 as stated fails on the recorded [brier_score]: a prediction with
    [p_breakout_7d = 0.8866], 1000 stars and threshold 500, scored at 1600
    stars, is a breakout ([delta = 600]); the square is 0.01285956 and the
    row holds 0.01286. *)
Lemma brier_score_is_rounded :
  exists row bs ae,
    Score.score_one Example.later 20000 Example.github_later
      (Example.prediction "acme/rocket") = Ok (row, bs, ae)
    /\ row_delta_stars row = 600%Z
    /\ row_breakout_actual row = 1%Z
    /\ row_abs_error_stars row = 332%Z
    /\ (row_p_breakout_7d row - IZR (row_breakout_actual row)) ^ 2 = 0.01285956
    /\ row_brier_score row = 0.01286
    /\ row_brier_score row
       <> (row_p_breakout_7d row - IZR (row_breakout_actual row)) ^ 2.
Proof.
  eexists _, _, _.
  split; [apply (score_one_found _ _ _ _ Example.rocket_later); reflexivity |].
  unfold Score.outcome. cbn -[pow Score.brier Z.leb Z.sub].
  change (500 <=? 1600 - 1000)%Z with true. cbv iota.
  assert (Hsq : (0.8866 - 1) ^ 2 = 0.01285956) by lra.
  assert (Hround : Py.round_to (Score.brier 0.8866 1) 6 = 0.01286).
  { unfold Py.round_to, Score.brier. rewrite Hsq.
    rewrite (round_near 12860); [lra | lra]. }
  repeat split; try reflexivity; try exact Hsq; try exact Hround.
  rewrite Hround, Hsq. lra.
Qed.

(** C10: a telemetry response without [stargazers_count] is read as 0
    stars.  At scoring time the row of the prediction has [stars_after_7d =
    0] and [delta_stars = - stars_now], and a batch holding that prediction
    whose repositories are all served is scored to the end with that row in
    the ledger; at prediction time the snapshot and the prediction have
    [stars_now = 0]. *)
Theorem missing_star_count_reads_zero
    (now : Z) (gh : GitHub) (fs : Files) (preds : list Prediction)
    (p : Prediction) (repo : Repo) :
  gh_repos gh !! full_name p = Some repo ->
  repo_stargazers_count repo = None ->
  (0 <= default 0 (repo_forks_count repo))%Z ->
  predictions fs !! Score.target_date now = Some preds ->
  In p preds ->
  Forall (fun q => is_Some (gh_repos gh !! full_name q)) preds ->
  (exists row bs ae,
     Score.score_one now (Score.target_date now) gh p = Ok (row, bs, ae)
     /\ row_stars_after_7d row = 0%Z
     /\ row_delta_stars row = (- stars_now p)%Z
     /\ exists fs' out ledger,
          Score.main now gh fs = (fs', out, Ok tt)
          /\ outcomes_csv fs' = Some ledger
          /\ In (Row row) ledger)
  /\ (exists s q,
        Daily.forecast now repo = Ok (s, q)
        /\ snap_stars_now s = 0%Z
        /\ stars_now q = 0%Z).
Proof.
  intros Hrepo Hstars Hforks Hfile Hin Hall. split.
  - eexists _, _, _.
    split; [apply score_one_found; exact Hrepo |].
    unfold Score.outcome. cbn. rewrite Hstars. cbn.
    split; [reflexivity |]. split; [reflexivity |].
    assert (Hne : preds <> []) by (intros ->; inversion Hin).
    destruct (main_completes now gh fs preds Hfile Hne Hall)
      as (fs' & out & rows & summary & Hmain & Hrows & Hledger & _).
    exists fs', out. eexists. split; [exact Hmain |]. split; [exact Hledger |].
    apply in_or_app. right. apply in_or_app. right. apply in_map.
    clear Hledger Hmain Hfile Hne Hall.
    induction Hrows as [| q row qs rows' (repo' & Hq & Hrow) Hrest IH];
      [inversion Hin |].
    destruct Hin as [-> | Hin].
    + left. rewrite Hrow. rewrite Hrepo in Hq. injection Hq as <-.
      unfold Score.outcome. cbn. rewrite Hstars. reflexivity.
    + right. apply IH. exact Hin.
  - destruct (forecast_fields now repo) as (z & s & q & _ & Hrun & Hs & Hq & _).
    { rewrite Hstars. simpl. lia. }
    { exact Hforks. }
    exists s, q. rewrite Hstars in Hs, Hq. auto.
Qed.

Lemma missing_star_count_reads_zero_witness :
  (exists row bs ae,
     Score.score_one Example.later (Score.target_date Example.later)
       Example.github_bare (Example.prediction "acme/rocket") = Ok (row, bs, ae)
     /\ row_stars_after_7d row = 0%Z
     /\ row_delta_stars row = (- stars_now (Example.prediction "acme/rocket"))%Z
     /\ exists fs' out ledger,
          Score.main Example.later Example.github_bare Example.single_batch_files
            = (fs', out, Ok tt)
          /\ outcomes_csv fs' = Some ledger
          /\ In (Row row) ledger)
  /\ (exists s q,
        Daily.forecast Example.later Example.bare = Ok (s, q)
        /\ snap_stars_now s = 0%Z
        /\ stars_now q = 0%Z).
Proof.
  apply (missing_star_count_reads_zero Example.later Example.github_bare
           Example.single_batch_files [Example.prediction "acme/rocket"]
           (Example.prediction "acme/rocket") Example.bare).
  - reflexivity.
  - reflexivity.
  - simpl. lia.
  - reflexivity.
  - left. reflexivity.
  - constructor; [| constructor]. exists Example.bare. reflexivity.
Defined.

End OutcomeClaims.

(** ** Bounds on [exp] and [ln] *)

Section ExpBounds.
Local Open Scope R_scope.

Lemma scale_pos : 0 < IZR Bounds.scale.
Proof. apply IZR_lt. reflexivity. Qed.

Lemma sq_step (x : Z) :
  (0 <= x)%Z ->
  0 <= IZR (x * x / Bounds.scale) / IZR Bounds.scale
    <= (IZR x / IZR Bounds.scale) ^ 2.
Proof.
  intros Hx. pose proof scale_pos as HS.
  assert (Hq : (0 <= x * x / Bounds.scale)%Z).
  { apply Z.div_pos; [nia | reflexivity]. }
  assert (Hm : (Bounds.scale * (x * x / Bounds.scale) <= x * x)%Z).
  { apply Z.mul_div_le. reflexivity. }
  apply IZR_le in Hq, Hm. rewrite !mult_IZR in Hm.
  set (q := IZR (x * x / Bounds.scale)) in *.
  set (S := IZR Bounds.scale) in *.
  assert (Hinv : 0 < / S) by (by apply Rinv_0_lt_compat).
  split.
  - apply Rmult_le_pos; lra.
  - replace ((IZR x / S) ^ 2) with (IZR x * IZR x * / S * / S) by (field; lra).
    replace (q / S) with (S * q * / S * / S) by (field; lra).
    apply Rmult_le_compat_r; [lra |]. apply Rmult_le_compat_r; lra.
Qed.

Lemma sq_down_sound (k : nat) : forall x : Z,
  (0 <= x)%Z ->
  0 <= IZR (Bounds.sq_down k x) / IZR Bounds.scale
    <= (IZR x / IZR Bounds.scale) ^ (2 ^ k).
Proof.
  pose proof scale_pos as HS.
  induction k as [| k IH]; intros x Hx.
  - simpl. apply IZR_le in Hx. split.
    + apply Rmult_le_pos; [lra |]. left. by apply Rinv_0_lt_compat.
    + lra.
  - destruct (sq_step x Hx) as [H0 H1].
    assert (Hq : (0 <= x * x / Bounds.scale)%Z).
    { apply Z.div_pos; [nia | reflexivity]. }
    destruct (IH _ Hq) as [IH0 IH1].
    cbn [Bounds.sq_down]. split; [exact IH0 |].
    eapply Rle_trans; [exact IH1 |].
    replace (2 ^ S k)%nat with (2 * 2 ^ k)%nat by (simpl; lia).
    rewrite pow_mult. apply pow_incr. split; assumption.
Qed.

Lemma exp_pow_nat (x : R) (n : nat) : exp (INR n * x) = exp x ^ n.
Proof.
  induction n as [| n IH].
  - simpl. rewrite Rmult_0_l. apply exp_0.
  - rewrite S_INR, Rmult_plus_distr_r, Rmult_1_l, exp_plus, IH. simpl. ring.
Qed.

Lemma exp_ge_pow (a r : R) (n : nat) :
  (0 < n)%nat -> 0 <= r <= 1 + a / INR n -> r ^ n <= exp a.
Proof.
  intros Hn [H0 H1]. apply lt_0_INR in Hn.
  replace (exp a) with (exp (INR n * (a / INR n))) by (f_equal; field; lra).
  rewrite exp_pow_nat. apply pow_incr. split; [exact H0 |].
  pose proof (exp_ineq1_le (a / INR n)). lra.
Qed.

Lemma pow2_INR (k : nat) : INR (2 ^ k) = IZR (2 ^ Z.of_nat k).
Proof. rewrite pow_INR, <- pow_IZR. reflexivity. Qed.

Lemma start_sound (num den : Z) (k : nat) :
  (0 < den)%Z ->
  IZR (Bounds.start num den k) / IZR Bounds.scale
    <= 1 + IZR num / IZR den / INR (2 ^ k).
Proof.
  intros Hden. pose proof scale_pos as HS.
  assert (Hp : (0 < 2 ^ Z.of_nat k)%Z) by (apply Z.pow_pos_nonneg; lia).
  assert (HD : (0 < den * 2 ^ Z.of_nat k)%Z) by nia.
  pose proof (Z.mul_div_le (Bounds.scale * (den * 2 ^ Z.of_nat k + num))
                (den * 2 ^ Z.of_nat k) HD) as Hm.
  fold (Bounds.start num den k) in Hm.
  apply IZR_le in Hm. apply IZR_lt in Hden, Hp.
  rewrite !mult_IZR, plus_IZR, mult_IZR in Hm.
  rewrite pow2_INR.
  set (s := IZR (Bounds.start num den k)) in *.
  set (P := IZR (2 ^ Z.of_nat k)) in *.
  set (d := IZR den) in *. set (n := IZR num) in *.
  set (S := IZR Bounds.scale) in *.
  assert (Hdiff : 1 + n / d / P - s / S
                  = (S * (d * P + n) - d * P * s) * / (d * P * S)).
  { field. lra. }
  assert (0 < d * P * S).
  { apply Rmult_lt_0_compat; [apply Rmult_lt_0_compat |]; lra. }
  assert (0 <= (S * (d * P + n) - d * P * s) * / (d * P * S)).
  { apply Rmult_le_pos; [lra |]. left. by apply Rinv_0_lt_compat. }
  lra.
Qed.

(** A certified lower bound of the exponential at a rational. *)
Lemma exp_lower_bound (num den : Z) (k : nat) (lo : Z) :
  Bounds.certifies num den k lo = true ->
  IZR lo / IZR Bounds.scale <= exp (IZR num / IZR den).
Proof.
  unfold Bounds.certifies. intros Hc.
  apply andb_prop in Hc as [Hc Hlo]. apply andb_prop in Hc as [Hden Hst].
  apply Z.ltb_lt in Hden. apply Z.leb_le in Hst, Hlo.
  pose proof scale_pos as HS.
  destruct (sq_down_sound k _ Hst) as [_ Hsq].
  fold (Bounds.exp_floor num den k) in Hsq.
  apply IZR_le in Hlo.
  assert (Hfirst : IZR lo / IZR Bounds.scale
                   <= IZR (Bounds.exp_floor num den k) / IZR Bounds.scale).
  { apply Rmult_le_compat_r; [| exact Hlo]. left. by apply Rinv_0_lt_compat. }
  eapply Rle_trans; [exact Hfirst |]. eapply Rle_trans; [exact Hsq |].
  apply exp_ge_pow.
  - clear. induction k; simpl; lia.
  - split; [| by apply start_sound].
    apply IZR_le in Hst. apply Rmult_le_pos; [exact Hst |].
    left. by apply Rinv_0_lt_compat.
Qed.

(** A certified upper bound, from the lower bound at the opposite. *)
Lemma exp_upper_bound (num den : Z) (k : nat) (lo : Z) :
  (0 <? lo)%Z && Bounds.certifies (- num) den k lo = true ->
  exp (IZR num / IZR den) <= IZR Bounds.scale / IZR lo.
Proof.
  intros Hc. apply andb_prop in Hc as [Hpos Hc].
  apply Z.ltb_lt in Hpos. apply IZR_lt in Hpos.
  pose proof (exp_lower_bound _ _ _ _ Hc) as Hlow.
  pose proof scale_pos as HS.
  replace (IZR (- num) / IZR den) with (- (IZR num / IZR den)) in Hlow.
  2: { rewrite opp_IZR. unfold Rdiv. ring. }
  rewrite exp_Ropp in Hlow.
  pose proof (exp_pos (IZR num / IZR den)) as He.
  set (e := exp (IZR num / IZR den)) in *.
  assert (Hle : IZR lo * e <= IZR Bounds.scale).
  { apply Rmult_le_compat_r with (r := IZR Bounds.scale * e) in Hlow.
    2: { left. apply Rmult_lt_0_compat; lra. }
    replace (IZR lo / IZR Bounds.scale * (IZR Bounds.scale * e))
      with (IZR lo * e) in Hlow by (field; lra).
    replace (/ e * (IZR Bounds.scale * e)) with (IZR Bounds.scale) in Hlow
      by (field; lra).
    exact Hlow. }
  apply Rmult_le_reg_l with (r := IZR lo); [exact Hpos |].
  replace (IZR lo * (IZR Bounds.scale / IZR lo)) with (IZR Bounds.scale)
    by (field; lra).
  exact Hle.
Qed.

Lemma exp_mono (x y : R) : x <= y -> exp x <= exp y.
Proof.
  intros [Hlt | ->]; [left; by apply exp_increasing | apply Rle_refl].
Qed.

Lemma ln_upper (q b : R) : 0 < q -> q <= exp b -> ln q <= b.
Proof.
  intros Hq Hb. destruct (Rle_dec (ln q) b) as [| Hn]; [done |].
  apply Rnot_le_lt, exp_increasing in Hn. rewrite exp_ln in Hn by done. lra.
Qed.

Lemma ln_lower (q a : R) : 0 < q -> exp a <= q -> a <= ln q.
Proof.
  intros Hq Ha. destruct (Rle_dec a (ln q)) as [| Hn]; [done |].
  apply Rnot_le_lt, exp_increasing in Hn. rewrite exp_ln in Hn by done. lra.
Qed.

End ExpBounds.

(** ** The worked example *)

Section WorkedExample.
Local Open Scope R_scope.

Ltac certify := vm_compute; reflexivity.

Lemma ln_10_bounds : 2.30258 <= ln 10 <= 2.30259.
Proof.
  split.
  - apply ln_lower; [lra |].
    pose proof (exp_upper_bound 230258 100000 30 (10 ^ 19) ltac:(certify)) as H.
    replace (IZR 230258 / IZR 100000) with 2.30258 in H by lra.
    unfold Bounds.scale in H. simpl Z.pow in H. lra.
  - apply ln_upper; [lra |].
    pose proof (exp_lower_bound 230259 100000 30 (10 ^ 21) ltac:(certify)) as H.
    replace (IZR 230259 / IZR 100000) with 2.30259 in H by lra.
    unfold Bounds.scale in H. simpl Z.pow in H. lra.
Qed.

Lemma ln_100_01_bounds : 4.60526 <= ln 100.01 <= 4.60528.
Proof.
  split.
  - apply ln_lower; [lra |].
    pose proof (exp_upper_bound 460526 100000 30 999910180000000000
                  ltac:(certify)) as H.
    replace (IZR 460526 / IZR 100000) with 4.60526 in H by lra.
    unfold Bounds.scale in H. lra.
  - apply ln_upper; [lra |].
    pose proof (exp_lower_bound 460528 100000 30 10001098000000000000000
                  ltac:(certify)) as H.
    replace (IZR 460528 / IZR 100000) with 4.60528 in H by lra.
    unfold Bounds.scale in H. lra.
Qed.

Lemma ln_51_bounds : 3.93182 <= ln 51 <= 3.93183.
Proof.
  split.
  - apply ln_lower; [lra |].
    pose proof (exp_upper_bound 393182 100000 30 1960795000000000000
                  ltac:(certify)) as H.
    replace (IZR 393182 / IZR 100000) with 3.93182 in H by lra.
    unfold Bounds.scale in H. lra.
  - apply ln_upper; [lra |].
    pose proof (exp_lower_bound 393183 100000 30 5100022000000000000000
                  ltac:(certify)) as H.
    replace (IZR 393183 / IZR 100000) with 3.93183 in H by lra.
    unfold Bounds.scale in H. lra.
Qed.

(** The score of 100 stars a day, pushed just now, 50 forks. *)
Lemma example_score :
  exists z, Daily.score 100 0 50 = Ok z /\ 2.05616 <= z <= 2.05619.
Proof.
  eexists. split; [apply score_defined; [lra | lia] |].
  pose proof ln_10_bounds as [HL1 HL2].
  pose proof ln_100_01_bounds as [Ha1 Ha2].
  pose proof ln_51_bounds as [Hb1 Hb2].
  replace (100 + 0.01) with 100.01 by lra.
  replace (IZR 50 + 1) with 51 by lra.
  set (L := ln 10) in *. set (a := ln 100.01) in *. set (b := ln 51) in *.
  assert (HiL : 0 < / L) by (apply Rinv_0_lt_compat; lra).
  replace (0.9 * (a / L) - 0.25 * 0 + 0.15 * (b / L))
    with ((0.9 * a + 0.15 * b) * / L) by (field; lra).
  set (N := 0.9 * a + 0.15 * b).
  assert (HN : 4.734507 <= N <= 4.7345265) by (unfold N; lra).
  split.
  - apply Rmult_le_reg_r with (r := L); [lra |].
    rewrite Rmult_assoc, Rinv_l by lra. nra.
  - apply Rmult_le_reg_r with (r := L); [lra |].
    rewrite Rmult_assoc, Rinv_l by lra. nra.
Qed.

Lemma example_logistic (z : R) :
  2.05616 <= z <= 2.05619 -> 0.88655 < Daily.logistic z < 0.88665.
Proof.
  intros [Hlo Hhi].
  pose proof (exp_lower_bound (-205619) 100000 30 12794049000000000000
                ltac:(certify)) as H1.
  pose proof (exp_upper_bound (-205616) 100000 30 781589904000000000000
                ltac:(certify)) as H2.
  replace (IZR (-205619) / IZR 100000) with (- 2.05619) in H1 by lra.
  replace (IZR (-205616) / IZR 100000) with (- 2.05616) in H2 by lra.
  unfold Bounds.scale in H1, H2.
  assert (He1 : exp (- 2.05619) <= exp (- z)) by (apply exp_mono; lra).
  assert (He2 : exp (- z) <= exp (- 2.05616)) by (apply exp_mono; lra).
  unfold Daily.logistic. set (e := exp (- z)) in *.
  assert (Hb : 0.127940 <= e <= 0.127945) by lra.
  assert (Hi : 0 < / (1 + e)) by (apply Rinv_0_lt_compat; lra).
  unfold Rdiv. rewrite Rmult_1_l.
  assert (Hone : (1 + e) * / (1 + e) = 1) by (apply Rinv_r; lra).
  split; nra.
Qed.

Lemma example_age : Daily.age_days Example.now (repo_created_at Example.rocket) = 10.
Proof.
  unfold Daily.age_days, total_seconds.
  change (Example.now - repo_created_at Example.rocket)%Z with 864000000000%Z.
  unfold Py.max. destruct (Rlt_dec 1 (864000000000 / 1000000 / 86400)); lra.
Qed.

Lemma example_since_push :
  Daily.since_push_days Example.now (repo_pushed_at Example.rocket) = 0.
Proof.
  unfold Daily.since_push_days, total_seconds.
  change (Example.now - repo_pushed_at Example.rocket)%Z with 0%Z.
  unfold Py.max. destruct (Rlt_dec 0 (0 / 1000000 / 86400)); lra.
Qed.

Lemma round_to_integer (m : Z) (n : nat) : Py.round_to (IZR m) n = IZR m.
Proof.
  pose proof (pow10_pos n) as Hp. unfold Py.round_to.
  assert (H10 : 10 ^ n = IZR (10 ^ Z.of_nat n)) by (by rewrite pow_IZR).
  rewrite H10 in *. rewrite <- mult_IZR, round_IZR, mult_IZR. field. lra.
Qed.

(** C7: for 1000 stars, an age of 10 days (100 stars a day), 50 forks and a
    push just now, the score is about 2.056, the model's probability is
    within 0.001 of 0.886 and is recorded as 0.8866, the threshold is 500,
    the point estimate 1932, the band 25 and the interval [[1907, 1957]]. *)
Theorem worked_example :
  exists z s p,
    Daily.score 100 0 50 = Ok z
    /\ Daily.forecast Example.now Example.rocket = Ok (s, p)
    /\ stars_now p = 1000%Z
    /\ feat_forks_now (features p) = 50%Z
    /\ feat_age_days (features p) = 10
    /\ feat_since_push_days (features p) = 0
    /\ feat_stars_per_day (features p) = 100
    /\ 2.05 < z < 2.06
    /\ Rabs (Daily.clamp (Daily.logistic z) 0 1 - 0.886) < 0.001
    /\ p_breakout_7d p = 0.8866
    /\ breakout_threshold_7d p = 500%Z
    /\ stars_pred_7d p = 1932%Z
    /\ Daily.band (breakout_threshold_7d p) (Daily.clamp (Daily.logistic z) 0 1)
       = 25%Z
    /\ stars_pred_low_7d p = 1907%Z
    /\ stars_pred_high_7d p = 1957%Z.
Proof.
  destruct example_score as (z & Hz & Hzb).
  pose proof (example_logistic z Hzb) as Hp.
  exists z. eexists _, _. split; [exact Hz |]. split.
  { unfold Daily.forecast. cbv zeta.
    rewrite example_age, example_since_push.
    change (default 0%Z (repo_stargazers_count Example.rocket)) with 1000%Z.
    change (default 0%Z (repo_forks_count Example.rocket)) with 50%Z.
    replace (IZR 1000 / 10) with 100 by lra.
    rewrite Hz. cbn [mbind Py.result_bind]. reflexivity. }
  cbn [stars_now features feat_forks_now feat_age_days feat_since_push_days
       feat_stars_per_day p_breakout_7d breakout_threshold_7d stars_pred_7d
       stars_pred_low_7d stars_pred_high_7d].
  rewrite clamp_logistic. set (q := Daily.logistic z) in *.
  assert (Hthr : Daily.breakout_threshold 1000 = 500%Z).
  { rewrite breakout_threshold_floor. reflexivity. }
  assert (Hpred : Daily.stars_pred 1000 100 q = 1932%Z).
  { unfold Daily.stars_pred, Daily.growth_multiplier. apply round_near. lra. }
  assert (Hband : Daily.band 500 q = 25%Z).
  { unfold Daily.band, Daily.band_raw.
    rewrite max_floor_case by lra. apply round_IZR. }
  assert (Hrec : Py.round_to q 4 = 0.8866).
  { unfold Py.round_to. rewrite (round_near 8866); lra. }
  rewrite Hthr, Hpred, Hband, Hrec.
  repeat split; try reflexivity; try lra.
  - apply (round_to_integer 10).
  - apply (round_to_integer 0).
  - apply (round_to_integer 100).
  - apply Rabs_def1; lra.
Qed.

End WorkedExample.

(** ** Further properties of the two scripts *)

Section Further.
Local Open Scope R_scope.

(** On the logistic function the clamp is the identity, and the probability
    is strictly between 0 and 1. *)
Theorem clamp_is_identity_on_logistic (z : R) :
  Daily.clamp (Daily.logistic z) 0 1 = Daily.logistic z
  /\ 0 < Daily.clamp (Daily.logistic z) 0 1 < 1.
Proof.
  rewrite clamp_logistic. split; [reflexivity | apply logistic_range].
Qed.



Lemma fetch_all_missing (gh : GitHub) (items : list string) :
  Exists (fun name => gh_repos gh !! name = None) items ->
  exists name,
    Daily.fetch_all gh items = Raise (Py.HTTPError name)
    /\ gh_repos gh !! name = None.
Proof.
  induction items as [| item rest IH]; intros Hex; [inversion Hex |].
  cbn [Daily.fetch_all]. unfold Daily.gh_get.
  destruct (gh_repos gh !! item) as [repo |] eqn:Hitem.
  - assert (Hrest : Exists (fun name => gh_repos gh !! name = None) rest).
    { inversion Hex as [? ? Hhd | ? ? Htl]; subst; [congruence | exact Htl]. }
    destruct (IH Hrest) as (name & Hrun & Hname).
    exists name. split; [| exact Hname]. cbn. rewrite Hrun. reflexivity.
  - exists item. split; [reflexivity | exact Hitem].
Qed.

(** The forecast run is all or nothing: if one repository of the search
    result cannot be fetched, the run ends with that HTTP error and writes
    neither the snapshot nor the prediction file. *)
Theorem forecast_run_fails_fast (now : Z) (gh : GitHub) (fs : Files) (items : list string) :
  gh_search gh = Some (Some items) ->
  Exists (fun name => gh_repos gh !! name = None) items ->
  exists name,
    gh_repos gh !! name = None
    /\ Daily.main now gh fs = (fs, Raise (Py.HTTPError name)).
Proof.
  intros Hsearch Hex.
  destruct (fetch_all_missing gh items Hex) as (name & Hrun & Hname).
  exists name. split; [exact Hname |].
  unfold Daily.main, Daily.search_items. rewrite Hsearch. cbn.
  rewrite Hrun. reflexivity.
Qed.

Lemma forecast_run_fails_fast_witness :
  exists name,
    gh_repos {| gh_search := Some (Some ["acme/gone"%string]); gh_repos := ∅ |}
      !! name = None
    /\ Daily.main Example.now
         {| gh_search := Some (Some ["acme/gone"%string]); gh_repos := ∅ |}
         Example.no_files
       = (Example.no_files, Raise (Py.HTTPError name)).
Proof.
  apply (forecast_run_fails_fast Example.now
           {| gh_search := Some (Some ["acme/gone"%string]); gh_repos := ∅ |}
           Example.no_files ["acme/gone"%string]).
  - reflexivity.
  - apply Exists_cons_hd. reflexivity.
Defined.

(** What [main] does once the loop has returned at least one row. *)
Lemma main_scored (now : Z) (gh : GitHub) (fs : Files) (preds : list Prediction)
    (row : Outcome) (rows : list Outcome) (bss : list R) (aes : list Z) :
  predictions fs !! Score.target_date now = Some preds ->
  Score.score_all now (Score.target_date now) gh preds = Ok (row :: rows, bss, aes) ->
  exists out summary,
    Score.main now gh fs
    = ({| snapshots := snapshots fs;
          predictions := predictions fs;
          outcomes_csv :=
            Some (default [] (outcomes_csv fs)
                  ++ match outcomes_csv fs with Some _ => [] | None => [Header] end
                  ++ map Row (row :: rows));
          summaries := <[Score.target_date now := summary]> (summaries fs) |},
       out, Ok tt).
Proof.
  intros Hfile Hrun. unfold Score.main. rewrite Hfile, Hrun.
  eexists _, _. reflexivity.
Qed.

(** Scoring is not idempotent: a second run on the same day, with the same
    telemetry, appends the rows of the batch to the ledger once more. *)
Theorem rescoring_appends_again
    (now : Z) (gh : GitHub) (fs : Files) (preds : list Prediction) :
  predictions fs !! Score.target_date now = Some preds ->
  preds <> [] ->
  Forall (fun p => is_Some (gh_repos gh !! full_name p)) preds ->
  exists fs1 out1 fs2 out2 ledger rows,
    Score.main now gh fs = (fs1, out1, Ok tt)
    /\ outcomes_csv fs1 = Some ledger
    /\ Score.main now gh fs1 = (fs2, out2, Ok tt)
    /\ length rows = length preds
    /\ outcomes_csv fs2 = Some (ledger ++ map Row rows)
    /\ (forall r, In r rows -> In (Row r) ledger).
Proof.
  intros Hfile Hne Hall.
  destruct (score_all_found now (Score.target_date now) gh preds Hall)
    as (rows & bss & aes & Hrun & Hrows).
  pose proof (Forall2_length _ _ _ Hrows) as Hlen.
  destruct rows as [| row rows'].
  { destruct preds; [done | discriminate Hlen]. }
  destruct (main_scored now gh fs preds row rows' bss aes Hfile Hrun)
    as (out1 & summary1 & Hmain1).
  set (fs1 := {| snapshots := snapshots fs;
                 predictions := predictions fs;
                 outcomes_csv :=
                   Some (default [] (outcomes_csv fs)
                         ++ match outcomes_csv fs with
                            | Some _ => []
                            | None => [Header]
                            end
                         ++ map Row (row :: rows'));
                 summaries := <[Score.target_date now := summary1]> (summaries fs) |})
    in *.
  destruct (main_scored now gh fs1 preds row rows' bss aes Hfile Hrun)
    as (out2 & summary2 & Hmain2).
  eexists fs1, out1, _, out2, _, (row :: rows').
  split; [exact Hmain1 |]. split; [reflexivity |].
  split; [exact Hmain2 |]. split; [by rewrite Hlen |].
  split.
  - cbn [outcomes_csv fs1 default]. rewrite app_nil_l. reflexivity.
  - intros r Hr. apply in_or_app. right. apply in_or_app. right.
    by apply in_map.
Qed.

Lemma rescoring_appends_again_witness :
  exists fs1 out1 fs2 out2 ledger rows,
    Score.main Example.later Example.github_later Example.single_batch_files
      = (fs1, out1, Ok tt)
    /\ outcomes_csv fs1 = Some ledger
    /\ Score.main Example.later Example.github_later fs1 = (fs2, out2, Ok tt)
    /\ length rows = length [Example.prediction "acme/rocket"]
    /\ outcomes_csv fs2 = Some (ledger ++ map Row rows)
    /\ (forall r, In r rows -> In (Row r) ledger).
Proof.
  apply (rescoring_appends_again Example.later Example.github_later
           Example.single_batch_files [Example.prediction "acme/rocket"]).
  - reflexivity.
  - discriminate.
  - constructor; [| constructor]. exists Example.rocket_later. reflexivity.
Defined.

End Further.

(** ** The forecast: bounds and monotonicity *)

Section ForecastBehaviour.
Local Open Scope R_scope.

Lemma round_to_mono (x y : R) (n : nat) :
  x <= y -> Py.round_to x n <= Py.round_to y n.
Proof.
  intros Hxy. pose proof (pow10_pos n) as Hp. unfold Py.round_to.
  apply Rmult_le_compat_r; [left; by apply Rinv_0_lt_compat |].
  apply IZR_le, round_mono. nra.
Qed.

Lemma ln_10_pos : 0 < ln 10.
Proof. rewrite <- ln_1. apply ln_increasing; lra. Qed.

Lemma ln_mono (x y : R) : 0 < x -> x <= y -> ln x <= ln y.
Proof.
  intros Hx [Hlt | ->]; [left; by apply ln_increasing | apply Rle_refl].
Qed.

Lemma logistic_increasing (z1 z2 : R) :
  z1 < z2 -> Daily.logistic z1 < Daily.logistic z2.
Proof.
  intros Hz. unfold Daily.logistic.
  assert (He : exp (- z2) < exp (- z1)) by (apply exp_increasing; lra).
  pose proof (exp_pos (- z2)) as Hp.
  unfold Rdiv. rewrite !Rmult_1_l.
  apply Rinv_lt_contravar; [| lra].
  apply Rmult_lt_0_compat; lra.
Qed.

Lemma logistic_mono (z1 z2 : R) :
  z1 <= z2 -> Daily.logistic z1 <= Daily.logistic z2.
Proof.
  intros [Hlt | ->]; [left; by apply logistic_increasing | apply Rle_refl].
Qed.

(** The probability never falls when the velocity or the fork count grows
    or the last push is more recent, neither before nor after the rounding
    to four decimals; before the rounding it rises strictly with each of
    the three. *)
Theorem probability_is_monotone
    (spd1 spd2 push1 push2 : R) (forks1 forks2 : Z) :
  0 <= spd1 <= spd2 -> push2 <= push1 -> (0 <= forks1 <= forks2)%Z ->
  exists z1 z2,
    Daily.score spd1 push1 forks1 = Ok z1
    /\ Daily.score spd2 push2 forks2 = Ok z2
    /\ z1 <= z2
    /\ Daily.clamp (Daily.logistic z1) 0 1 <= Daily.clamp (Daily.logistic z2) 0 1
    /\ Py.round_to (Daily.clamp (Daily.logistic z1) 0 1) 4
       <= Py.round_to (Daily.clamp (Daily.logistic z2) 0 1) 4
    /\ (spd1 < spd2 \/ push2 < push1 \/ (forks1 < forks2)%Z ->
        Daily.clamp (Daily.logistic z1) 0 1 < Daily.clamp (Daily.logistic z2) 0 1).
Proof.
  intros [Hs1 Hs2] Hpush [Hf1 Hf2].
  eexists _, _.
  split; [apply score_defined; [lra | lia] |].
  split; [apply score_defined; [lra | lia] |].
  pose proof ln_10_pos as HL.
  assert (HiL : 0 < / ln 10) by (by apply Rinv_0_lt_compat).
  apply IZR_le in Hf1 as Hf1r. apply IZR_le in Hf2 as Hf2r.
  assert (Ha : ln (spd1 + 0.01) <= ln (spd2 + 0.01)) by (apply ln_mono; lra).
  assert (Hb : ln (IZR forks1 + 1) <= ln (IZR forks2 + 1)) by (apply ln_mono; lra).
  assert (Ha' : ln (spd1 + 0.01) / ln 10 <= ln (spd2 + 0.01) / ln 10).
  { apply Rmult_le_compat_r; lra. }
  assert (Hb' : ln (IZR forks1 + 1) / ln 10 <= ln (IZR forks2 + 1) / ln 10).
  { apply Rmult_le_compat_r; lra. }
  rewrite !clamp_logistic.
  split; [lra |]. split; [apply logistic_mono; lra |].
  split; [apply round_to_mono, logistic_mono; lra |].
  intros Hstrict. apply logistic_increasing.
  destruct Hstrict as [H | [H | H]].
  - assert (ln (spd1 + 0.01) < ln (spd2 + 0.01)) by (apply ln_increasing; lra).
    assert (ln (spd1 + 0.01) / ln 10 < ln (spd2 + 0.01) / ln 10).
    { apply Rmult_lt_compat_r; lra. }
    lra.
  - lra.
  - apply IZR_lt in H.
    assert (ln (IZR forks1 + 1) < ln (IZR forks2 + 1)) by (apply ln_increasing; lra).
    assert (ln (IZR forks1 + 1) / ln 10 < ln (IZR forks2 + 1) / ln 10).
    { apply Rmult_lt_compat_r; lra. }
    lra.
Qed.

Lemma probability_is_monotone_witness :
  exists z1 z2,
    Daily.score 100 3 50 = Ok z1
    /\ Daily.score 120 0 50 = Ok z2
    /\ z1 <= z2
    /\ Daily.clamp (Daily.logistic z1) 0 1 <= Daily.clamp (Daily.logistic z2) 0 1
    /\ Py.round_to (Daily.clamp (Daily.logistic z1) 0 1) 4
       <= Py.round_to (Daily.clamp (Daily.logistic z2) 0 1) 4
    /\ (100 < 120 \/ 0 < 3 \/ (50 < 50)%Z ->
        Daily.clamp (Daily.logistic z1) 0 1 < Daily.clamp (Daily.logistic z2) 0 1).
Proof.
  apply (probability_is_monotone 100 120 3 0 50 50); [lra | lra | lia].
Defined.

(** The point estimate is never below the current star count and never
    above eleven times it: the velocity is at most the star count (the age
    is floored at one day) and the multiplier at most 1.4. *)
Theorem point_estimate_bounds (now : Z) (repo : Repo) :
  (0 <= default 0 (repo_stargazers_count repo))%Z ->
  (0 <= default 0 (repo_forks_count repo))%Z ->
  exists s p,
    Daily.forecast now repo = Ok (s, p)
    /\ (stars_now p <= stars_pred_7d p <= 11 * stars_now p)%Z.
Proof.
  intros Hs Hf.
  destruct (forecast_fields now repo Hs Hf)
    as (z & s & p & _ & Hrun & _ & Hstars & _ & _ & Hpred & _).
  exists s, p. split; [exact Hrun |].
  rewrite Hpred, Hstars.
  set (n := default 0%Z (repo_stargazers_count repo)) in *.
  pose proof (age_days_floor now (repo_created_at repo)) as Ha.
  set (age := Daily.age_days now (repo_created_at repo)) in *.
  pose proof (clamp_range (Daily.logistic z)) as [Hq0 Hq1].
  set (q := Daily.clamp (Daily.logistic z) 0 1) in *.
  apply IZR_le in Hs as Hn. fold n in Hn.
  assert (Hspd0 : 0 <= IZR n / age) by (by apply stars_per_day_nonneg).
  assert (Hspd1 : IZR n / age <= IZR n).
  { apply Rmult_le_reg_r with (r := age); [lra |].
    unfold Rdiv. rewrite Rmult_assoc, Rinv_l by lra. nra. }
  unfold Daily.stars_pred, Daily.growth_multiplier.
  split.
  - apply round_lower. nra.
  - apply round_upper. rewrite mult_IZR. nra.
Qed.

Lemma point_estimate_bounds_witness :
  exists s p,
    Daily.forecast Example.now Example.rocket = Ok (s, p)
    /\ (stars_now p <= stars_pred_7d p <= 11 * stars_now p)%Z.
Proof.
  apply (point_estimate_bounds Example.now Example.rocket); simpl; lia.
Defined.

(** The half-width of the interval: the upper bound is the point estimate
    plus the band, the band is at least 25 and at most a quarter of the
    threshold (rounded up), and the lower bound is either the point estimate
    minus the band or, when that is negative, zero. *)
Theorem interval_half_width (now : Z) (repo : Repo) :
  (0 <= default 0 (repo_stargazers_count repo))%Z ->
  (0 <= default 0 (repo_forks_count repo))%Z ->
  exists s p band,
    Daily.forecast now repo = Ok (s, p)
    /\ stars_pred_high_7d p = (stars_pred_7d p + band)%Z
    /\ (25 <= band)%Z
    /\ (4 * band <= breakout_threshold_7d p + 3)%Z
    /\ ((band <= stars_pred_7d p)%Z ->
        stars_pred_low_7d p = (stars_pred_7d p - band)%Z)
    /\ ((stars_pred_7d p < band)%Z -> stars_pred_low_7d p = 0%Z).
Proof.
  intros Hs Hf.
  destruct (forecast_fields now repo Hs Hf)
    as (z & s & p & _ & Hrun & _ & _ & Hthr & _ & _ & Hlow & Hhigh).
  exists s, p. eexists. split; [exact Hrun |]. split; [exact Hhigh |].
  pose proof (clamp_range (Daily.logistic z)) as [Hq0 Hq1].
  set (q := Daily.clamp (Daily.logistic z) 0 1) in *.
  set (t := breakout_threshold_7d p) in *.
  assert (Ht : (200 <= t)%Z).
  { rewrite Hthr, breakout_threshold_floor. lia. }
  split; [apply band_floor |].
  split.
  - assert (Hb : (Daily.band t q <= (t + 3) / 4)%Z).
    { unfold Daily.band, Daily.band_raw. apply round_upper.
      apply IZR_le in Ht.
      assert (Hc : (t <= 4 * ((t + 3) / 4))%Z).
      { pose proof (Z.div_mod (t + 3) 4 ltac:(lia)).
        pose proof (Z.mod_pos_bound (t + 3) 4 ltac:(lia)). lia. }
      apply IZR_le in Hc. rewrite mult_IZR in Hc.
      unfold Py.max.
      destruct (Rlt_dec 25 (0.25 * IZR t * (1.0 - q))); nra. }
    pose proof (Z.mul_div_le (t + 3) 4 ltac:(lia)). lia.
  - rewrite Hlow. split; intros; lia.
Qed.

Lemma interval_half_width_witness :
  exists s p band,
    Daily.forecast Example.now Example.rocket = Ok (s, p)
    /\ stars_pred_high_7d p = (stars_pred_7d p + band)%Z
    /\ (25 <= band)%Z
    /\ (4 * band <= breakout_threshold_7d p + 3)%Z
    /\ ((band <= stars_pred_7d p)%Z ->
        stars_pred_low_7d p = (stars_pred_7d p - band)%Z)
    /\ ((stars_pred_7d p < band)%Z -> stars_pred_low_7d p = 0%Z).
Proof.
  apply (interval_half_width Example.now Example.rocket); simpl; lia.
Defined.

End ForecastBehaviour.

(** ** The forecast run as a whole *)

Section ForecastRun.
Local Open Scope R_scope.

(** The fields of a forecast that are copied from the response. *)
Lemma forecast_shape (now : Z) (repo : Repo) (s : Snapshot) (p : Prediction) :
  Daily.forecast now repo = Ok (s, p) ->
  date_utc p = date now
  /\ snap_date_utc s = date now
  /\ full_name p = repo_full_name repo
  /\ snap_full_name s = repo_full_name repo
  /\ html_url p = repo_html_url repo
  /\ snap_stars_now s = stars_now p
  /\ feat_forks_now (features p) = snap_forks_now s
  /\ feat_age_days (features p)
     = Py.round_to (Daily.age_days now (repo_created_at repo)) 3
  /\ feat_since_push_days (features p)
     = Py.round_to (Daily.since_push_days now (repo_pushed_at repo)) 3
  /\ feat_stars_per_day (features p)
     = Py.round_to (IZR (stars_now p) / Daily.age_days now (repo_created_at repo)) 3
  /\ model p = Some "heuristic_logistic_v1"%string.
Proof.
  unfold Daily.forecast.
  destruct (Daily.score _ _ _) as [z | e]; cbn; [| discriminate].
  intros H. injection H as <- <-. cbn. repeat split; reflexivity.
Qed.

(** The recorded features keep the floors of the derivation: the age is at
    least one day, the time since the last push is not negative and the
    velocity is between 0 and the star count.  A repository created within
    the last day (or dated in the future) has age 1 and a velocity equal to
    its star count; one pushed at or after the reference instant has 0 days
    since its push. *)
Theorem recorded_features_keep_floors (now : Z) (repo : Repo) :
  (0 <= default 0 (repo_stargazers_count repo))%Z ->
  (0 <= default 0 (repo_forks_count repo))%Z ->
  exists s p,
    Daily.forecast now repo = Ok (s, p)
    /\ 1 <= feat_age_days (features p)
    /\ 0 <= feat_since_push_days (features p)
    /\ 0 <= feat_stars_per_day (features p) <= IZR (stars_now p)
    /\ ((now - repo_created_at repo <= microseconds_per_day)%Z ->
        feat_age_days (features p) = 1
        /\ feat_stars_per_day (features p) = IZR (stars_now p))
    /\ ((now <= repo_pushed_at repo)%Z -> feat_since_push_days (features p) = 0).
Proof.
  intros Hs Hf.
  destruct (forecast_fields now repo Hs Hf)
    as (z & s & p & _ & Hrun & _ & Hstars & _).
  destruct (forecast_shape now repo s p Hrun)
    as (_ & _ & _ & _ & _ & _ & _ & Hage & Hpush & Hspd & _).
  exists s, p. split; [exact Hrun |].
  rewrite Hage, Hpush, Hspd, Hstars.
  set (n := default 0%Z (repo_stargazers_count repo)) in *.
  pose proof (age_days_floor now (repo_created_at repo)) as Ha.
  pose proof (since_push_days_floor now (repo_pushed_at repo)) as Hp.
  apply IZR_le in Hs as Hn. fold n in Hn.
  assert (Hspd0 : 0 <= IZR n / Daily.age_days now (repo_created_at repo))
    by (by apply stars_per_day_nonneg).
  assert (Hspd1 : IZR n / Daily.age_days now (repo_created_at repo) <= IZR n).
  { apply Rmult_le_reg_r with (r := Daily.age_days now (repo_created_at repo));
      [lra |].
    unfold Rdiv. rewrite Rmult_assoc, Rinv_l by lra. nra. }
  split; [rewrite <- (round_to_integer 1 3); by apply round_to_mono |].
  split; [rewrite <- (round_to_integer 0 3); by apply round_to_mono |].
  split.
  { split; [rewrite <- (round_to_integer 0 3) | rewrite <- (round_to_integer n 3) at 2];
      by apply round_to_mono. }
  split.
  - intros Hyoung.
    assert (Hone : Daily.age_days now (repo_created_at repo) = 1).
    { unfold Daily.age_days, total_seconds, microseconds_per_day in *.
      apply max_floor_case. apply IZR_le in Hyoung.
      change (86400 * 1000000)%Z with 86400000000%Z in Hyoung. lra. }
    rewrite Hone. split; [apply (round_to_integer 1) |].
    replace (IZR n / 1) with (IZR n) by lra. apply round_to_integer.
  - intros Hfresh.
    assert (Hzero : Daily.since_push_days now (repo_pushed_at repo) = 0).
    { unfold Daily.since_push_days, total_seconds.
      apply max_floor_case.
      assert (Hd : (now - repo_pushed_at repo <= 0)%Z) by lia.
      apply IZR_le in Hd. lra. }
    rewrite Hzero. apply (round_to_integer 0).
Qed.

Lemma recorded_features_keep_floors_witness :
  exists s p,
    Daily.forecast Example.now Example.rocket = Ok (s, p)
    /\ 1 <= feat_age_days (features p)
    /\ 0 <= feat_since_push_days (features p)
    /\ 0 <= feat_stars_per_day (features p) <= IZR (stars_now p)
    /\ ((Example.now - repo_created_at Example.rocket <= microseconds_per_day)%Z ->
        feat_age_days (features p) = 1
        /\ feat_stars_per_day (features p) = IZR (stars_now p))
    /\ ((Example.now <= repo_pushed_at Example.rocket)%Z ->
        feat_since_push_days (features p) = 0).
Proof.
  apply (recorded_features_keep_floors Example.now Example.rocket); simpl; lia.
Defined.


End ForecastRun.



Section ForecastBatch.
Local Open Scope R_scope.






End ForecastBatch.

(** ** The scoring run: ledger, header and summary *)

Section ScoringRun.
Local Open Scope R_scope.

(** A scoring run never rewrites what is there: the prediction and snapshot
    files are untouched, the lines already in the ledger stay at its head
    in their order, an existing ledger is never removed, and the summaries
    of other dates are kept; this holds when the run completes, when it
    finds no batch and when it raises. *)
Theorem scoring_only_appends (now : Z) (gh : GitHub) (fs : Files) :
  let fs' := (Score.main now gh fs).1.1 in
  predictions fs' = predictions fs
  /\ snapshots fs' = snapshots fs
  /\ default [] (outcomes_csv fs) `prefix_of` default [] (outcomes_csv fs')
  /\ (is_Some (outcomes_csv fs) -> is_Some (outcomes_csv fs'))
  /\ (forall d, d <> Score.target_date now ->
        summaries fs' !! d = summaries fs !! d).
Proof.
  unfold Score.main.
  destruct (predictions fs !! Score.target_date now) as [preds |]; cbn.
  2: { split; [done |]. split; [done |]. split; [done |]. split; done. }
  destruct (Score.score_all now (Score.target_date now) gh preds)
    as [[[rows bss] aes] | e]; cbn.
  2: { split; [done |]. split; [done |]. split; [done |]. split; done. }
  destruct rows as [| row rows]; cbn.
  - split; [done |]. split; [done |]. split; [done |].
    split; [intros _; by eexists | done].
  - split; [done |]. split; [done |]. split; [by apply prefix_app_r |].
    split; [intros _; by eexists |].
    intros d Hd. by rewrite lookup_insert_ne.
Qed.


(** What the loop returns, in terms of its rows. *)
Lemma score_all_shape (now target : Z) (gh : GitHub) :
  forall (preds : list Prediction) (rows : list Outcome) (bss : list R) (aes : list Z),
  Score.score_all now target gh preds = Ok (rows, bss, aes) ->
  map row_full_name rows = map full_name preds
  /\ map row_stars_at_prediction rows = map stars_now preds
  /\ map row_p_breakout_7d rows = map p_breakout_7d preds
  /\ bss = map (fun r => Score.brier (row_p_breakout_7d r) (row_breakout_actual r)) rows
  /\ aes = map row_abs_error_stars rows
  /\ Forall (fun r => (row_breakout_actual r = 0 \/ row_breakout_actual r = 1)%Z
                      /\ (0 <= row_abs_error_stars r)%Z
                      /\ row_prediction_date_utc r = target) rows.
Proof.
  induction preds as [| p rest IH]; intros rows bss aes Hrun.
  - injection Hrun as <- <- <-. repeat split; constructor.
  - cbn [Score.score_all] in Hrun. unfold Score.score_one, Score.gh_get in Hrun.
    destruct (gh_repos gh !! full_name p) as [repo |]; [| discriminate].
    cbn in Hrun.
    destruct (Score.score_all now target gh rest) as [[[rows' bss'] aes'] | e];
      [| discriminate].
    cbn in Hrun. injection Hrun as <- <- <-.
    destruct (IH _ _ _ eq_refl) as (Hn & Hs & Hp & Hb & Ha & Hall).
    split; [cbn; by f_equal |]. split; [cbn; by f_equal |].
    split; [cbn; by f_equal |]. split; [cbn; by f_equal |].
    split; [cbn; by f_equal |].
    constructor; [| exact Hall]. cbn.
    split; [destruct (_ <=? _)%Z; auto |]. split; [lia | reflexivity].
Qed.

Lemma fold_add_shift (xs : list R) (a : R) : fold_left Rplus xs a = a + Py.sum xs.
Proof.
  unfold Py.sum. revert a.
  induction xs as [| x xs IH]; intros a; cbn; [lra |].
  rewrite (IH (a + x)), (IH (0 + x)). lra.
Qed.

Lemma sum_between (xs : list R) (lo hi : R) :
  Forall (fun x => lo <= x <= hi) xs ->
  lo * INR (length xs) <= Py.sum xs <= hi * INR (length xs).
Proof.
  induction 1 as [| x xs Hx Hxs IH].
  - unfold Py.sum. cbn. lra.
  - unfold Py.sum. cbn [fold_left length]. rewrite fold_add_shift, S_INR. lra.
Qed.

Lemma fold_add_nonneg (xs : list Z) (a : Z) :
  (0 <= a)%Z -> Forall (fun x => (0 <= x)%Z) xs -> (0 <= fold_left Z.add xs a)%Z.
Proof.
  intros Ha Hall. revert a Ha.
  induction Hall as [| x xs Hx Hxs IH]; intros a Ha; cbn; [done |].
  apply IH. lia.
Qed.

Lemma brier_unit (p : R) (y : Z) :
  0 <= p <= 1 -> (y = 0 \/ y = 1)%Z -> 0 <= Score.brier p y <= 1.
Proof.
  intros Hp [-> | ->]; unfold Score.brier; nra.
Qed.

Lemma mean_brier_unit (bss : list R) :
  Forall (fun x => 0 <= x <= 1) bss -> 0 <= Score.mean_brier bss <= 1.
Proof.
  intros Hall. pose proof (sum_between bss 0 1 Hall) as [Hlo Hhi].
  unfold Score.mean_brier. rewrite INR_IZR_INZ in *.
  set (n := Z.of_nat (length bss)) in *.
  assert (Hn : (0 <= n)%Z) by (unfold n; lia).
  assert (Hm : 1 <= IZR (Z.max 1 n)) by (apply IZR_le; lia).
  assert (Hmn : IZR n <= IZR (Z.max 1 n)) by (apply IZR_le; lia).
  assert (Hi : 0 < / IZR (Z.max 1 n)) by (apply Rinv_0_lt_compat; lra).
  split.
  - apply Rmult_le_pos; lra.
  - apply Rmult_le_reg_r with (r := IZR (Z.max 1 n)); [lra |].
    unfold Rdiv. rewrite Rmult_assoc, Rinv_l by lra. lra.
Qed.

Lemma mean_mae_nonneg (aes : list Z) :
  Forall (fun x => (0 <= x)%Z) aes -> 0 <= Score.mean_mae aes.
Proof.
  intros Hall. unfold Score.mean_mae.
  pose proof (fold_add_nonneg aes 0 ltac:(lia) Hall) as Hs. apply IZR_le in Hs.
  assert (Hm : 1 <= IZR (Z.max 1 (Z.of_nat (length aes)))) by (apply IZR_le; lia).
  apply Rmult_le_pos; [exact Hs |]. left. apply Rinv_0_lt_compat. lra.
Qed.

(** What [main] writes once the loop has returned at least one row. *)
Lemma main_scored_summary (now : Z) (gh : GitHub) (fs : Files)
    (preds : list Prediction) (row : Outcome) (rows : list Outcome)
    (bss : list R) (aes : list Z) :
  predictions fs !! Score.target_date now = Some preds ->
  Score.score_all now (Score.target_date now) gh preds = Ok (row :: rows, bss, aes) ->
  exists fs' out,
    Score.main now gh fs = (fs', out, Ok tt)
    /\ outcomes_csv fs' =
         Some (default [] (outcomes_csv fs)
               ++ match outcomes_csv fs with Some _ => [] | None => [Header] end
               ++ map Row (row :: rows))
    /\ summaries fs' !! Score.target_date now =
         Some {| sum_prediction_date_utc := Score.target_date now;
                 sum_scored_date_utc := date now;
                 sum_n := Z.of_nat (length (row :: rows));
                 sum_mean_brier := Py.round_to (Score.mean_brier bss) 6;
                 sum_mean_mae_stars := Py.round_to (Score.mean_mae aes) 3 |}.
Proof.
  intros Hfile Hrun. unfold Score.main. rewrite Hfile, Hrun.
  eexists _, _. split; [reflexivity |]. cbn [outcomes_csv summaries].
  split; [reflexivity |]. by rewrite lookup_insert_eq.
Qed.

Lemma brier_scores_unit (rows : list Outcome) :
  Forall (fun r => 0 <= row_p_breakout_7d r <= 1) rows ->
  Forall (fun r => (row_breakout_actual r = 0 \/ row_breakout_actual r = 1)%Z) rows ->
  Forall (fun x => 0 <= x <= 1)
    (map (fun r => Score.brier (row_p_breakout_7d r) (row_breakout_actual r)) rows).
Proof.
  intros Hp Hy. apply Forall_map.
  induction Hp as [| r rs Hr Hrs IH]; [constructor |].
  inversion Hy; subst. constructor; [by apply brier_unit | by apply IH].
Qed.

(** The numbers the loop collects for a batch of probabilities. *)
Lemma score_all_ranges (now target : Z) (gh : GitHub) (preds : list Prediction)
    (rows : list Outcome) (bss : list R) (aes : list Z) :
  Score.score_all now target gh preds = Ok (rows, bss, aes) ->
  Forall (fun p => 0 <= p_breakout_7d p <= 1) preds ->
  Forall (fun x => 0 <= x <= 1) bss /\ Forall (fun x => (0 <= x)%Z) aes.
Proof.
  intros Hrun Hprob.
  destruct (score_all_shape _ _ _ _ _ _ _ Hrun) as (_ & _ & Hp & Hb & Ha & Hall').
  split.
  - rewrite Hb. apply brier_scores_unit.
    + apply (Forall_map row_p_breakout_7d (fun x => 0 <= x <= 1)).
      rewrite Hp. by apply Forall_map.
    + eapply Forall_impl; [exact Hall' |]. cbn. intros r (H & _). exact H.
  - rewrite Ha. apply Forall_map. eapply Forall_impl; [exact Hall' |].
    cbn. intros r (_ & H & _). exact H.
Qed.

(** A non-empty batch of probabilities in [[0, 1]] whose repositories are
    all served gets a summary under its prediction date: [n] is the size of
    the batch, [mean_brier] lies in [[0, 1]] and [mean_mae_stars] is not
    negative; the ledger rows carry the names of the batch in its order. *)
Theorem summary_means_in_range
    (now : Z) (gh : GitHub) (fs : Files) (preds : list Prediction) :
  predictions fs !! Score.target_date now = Some preds ->
  preds <> [] ->
  Forall (fun p => is_Some (gh_repos gh !! full_name p)) preds ->
  Forall (fun p => 0 <= p_breakout_7d p <= 1) preds ->
  exists fs' out rows summary,
    Score.main now gh fs = (fs', out, Ok tt)
    /\ outcomes_csv fs' =
         Some (default [] (outcomes_csv fs)
               ++ match outcomes_csv fs with Some _ => [] | None => [Header] end
               ++ map Row rows)
    /\ map row_full_name rows = map full_name preds
    /\ summaries fs' !! Score.target_date now = Some summary
    /\ sum_prediction_date_utc summary = Score.target_date now
    /\ sum_scored_date_utc summary = date now
    /\ sum_n summary = Z.of_nat (length preds)
    /\ 0 <= sum_mean_brier summary <= 1
    /\ 0 <= sum_mean_mae_stars summary.
Proof.
  intros Hfile Hne Hall Hprob.
  destruct (score_all_found now (Score.target_date now) gh preds Hall)
    as (rows & bss & aes & Hrun & Hrows).
  pose proof (Forall2_length _ _ _ Hrows) as Hlen.
  destruct (score_all_shape _ _ _ _ _ _ _ Hrun) as (Hn & _).
  destruct (score_all_ranges _ _ _ _ _ _ _ Hrun Hprob) as [Hbss Haes].
  destruct rows as [| row rows'].
  { destruct preds; [done | discriminate Hlen]. }
  destruct (main_scored_summary now gh fs preds row rows' bss aes Hfile Hrun)
    as (fs' & out & Hmain & Hledger & Hsummary).
  exists fs', out, (row :: rows'). eexists.
  split; [exact Hmain |]. split; [exact Hledger |]. split; [exact Hn |].
  split; [exact Hsummary |]. cbn [sum_prediction_date_utc sum_scored_date_utc
                                  sum_n sum_mean_brier sum_mean_mae_stars].
  split; [reflexivity |]. split; [reflexivity |].
  split; [by rewrite Hlen |].
  split.
  - apply (round_to_between 0 1), mean_brier_unit, Hbss.
  - rewrite <- (round_to_integer 0 3). apply round_to_mono, mean_mae_nonneg, Haes.
Qed.

Lemma summary_means_in_range_witness :
  exists fs' out rows summary,
    Score.main Example.later Example.github_later Example.single_batch_files
      = (fs', out, Ok tt)
    /\ outcomes_csv fs' =
         Some (default [] (outcomes_csv Example.single_batch_files)
               ++ match outcomes_csv Example.single_batch_files with
                  | Some _ => []
                  | None => [Header]
                  end
               ++ map Row rows)
    /\ map row_full_name rows = map full_name [Example.prediction "acme/rocket"]
    /\ summaries fs' !! Score.target_date Example.later = Some summary
    /\ sum_prediction_date_utc summary = Score.target_date Example.later
    /\ sum_scored_date_utc summary = date Example.later
    /\ sum_n summary = Z.of_nat (length [Example.prediction "acme/rocket"])
    /\ 0 <= sum_mean_brier summary <= 1
    /\ 0 <= sum_mean_mae_stars summary.
Proof.
  apply (summary_means_in_range Example.later Example.github_later
           Example.single_batch_files [Example.prediction "acme/rocket"]).
  - reflexivity.
  - discriminate.
  - constructor; [| constructor]. exists Example.rocket_later. reflexivity.
  - constructor; [| constructor]. simpl. lra.
Defined.

End ScoringRun.

(** Further concrete runs. *)
Module Scenario.

(** An empty batch for day 19990 and a batch of one for day 20000, with no
    ledger yet. *)
Definition two_batches : Files :=
  {| snapshots := ∅;
     predictions := <[20000 := [Example.prediction "acme/rocket"]]>
                      (<[19990 := []]> ∅);
     outcomes_csv := None;
     summaries := ∅ |}.

(** The instant at which the batch of day 19990 is due. *)
Definition earlier : Z := Example.later - 10 * microseconds_per_day.


End Scenario.

Section ScoringComposition.
Local Open Scope R_scope.

(** The CSV header is written only by a run that finds no ledger.  On a
    fresh repository a completed run leaves the header followed by its
    rows; but if a run on an empty batch came first, it has created the
    ledger empty before raising, and the same completed run then leaves its
    rows with no header in front. *)
Theorem header_lost_after_empty_batch
    (now1 now2 : Z) (gh1 gh2 : GitHub) (fs : Files) (preds : list Prediction) :
  outcomes_csv fs = None ->
  predictions fs !! Score.target_date now1 = Some [] ->
  predictions fs !! Score.target_date now2 = Some preds ->
  preds <> [] ->
  Forall (fun p => is_Some (gh_repos gh2 !! full_name p)) preds ->
  exists rows fresh out fs1 fs2 out2,
    length rows = length preds
    /\ Score.main now2 gh2 fs = (fresh, out, Ok tt)
    /\ outcomes_csv fresh = Some (Header :: map Row rows)
    /\ Score.main now1 gh1 fs = (fs1, [], Raise Py.IndexError)
    /\ outcomes_csv fs1 = Some []
    /\ Score.main now2 gh2 fs1 = (fs2, out2, Ok tt)
    /\ outcomes_csv fs2 = Some (map Row rows).
Proof.
  intros Hnone Hempty Hfile Hne Hall.
  destruct (score_all_found now2 (Score.target_date now2) gh2 preds Hall)
    as (rows & bss & aes & Hrun & Hrows).
  pose proof (Forall2_length _ _ _ Hrows) as Hlen.
  destruct rows as [| row rows'].
  { destruct preds; [done | discriminate Hlen]. }
  destruct (main_scored_summary now2 gh2 fs preds row rows' bss aes Hfile Hrun)
    as (fresh & out & Hmain & Hledger & _).
  set (fs1 := {| snapshots := snapshots fs;
                 predictions := predictions fs;
                 outcomes_csv := Some [];
                 summaries := summaries fs |}).
  destruct (main_scored_summary now2 gh2 fs1 preds row rows' bss aes Hfile Hrun)
    as (fs2 & out2 & Hmain2 & Hledger2 & _).
  exists (row :: rows'), fresh, out, fs1, fs2, out2.
  split; [by rewrite Hlen |]. split; [exact Hmain |].
  split; [by rewrite Hledger, Hnone |].
  split.
  { unfold Score.main. rewrite Hempty. cbn. by rewrite Hnone. }
  split; [reflexivity |]. split; [exact Hmain2 |]. exact Hledger2.
Qed.

Lemma header_lost_after_empty_batch_witness :
  exists rows fresh out fs1 fs2 out2,
    length rows = length [Example.prediction "acme/rocket"]
    /\ Score.main Example.later Example.github_later
         Scenario.two_batches = (fresh, out, Ok tt)
    /\ outcomes_csv fresh = Some (Header :: map Row rows)
    /\ Score.main Scenario.earlier Example.quiet
         Scenario.two_batches = (fs1, [], Raise Py.IndexError)
    /\ outcomes_csv fs1 = Some []
    /\ Score.main Example.later Example.github_later fs1 = (fs2, out2, Ok tt)
    /\ outcomes_csv fs2 = Some (map Row rows).
Proof.
  apply (header_lost_after_empty_batch
           Scenario.earlier Example.later
           Example.quiet Example.github_later
           Scenario.two_batches
           [Example.prediction "acme/rocket"]).
  - reflexivity.
  - reflexivity.
  - reflexivity.
  - discriminate.
  - constructor; [| constructor]. exists Example.rocket_later. reflexivity.
Defined.

(** A forecast scored against later telemetry.  Because the threshold of a
    forecast is at least 200, the row counts as a breakout only if the
    repository gained at least 200 stars; with a smaller gain the row is no
    breakout and its Brier score is the square of the recorded probability,
    rounded; and an observation inside the forecast interval is within the
    half-width of the interval from the point estimate. *)
Theorem forecast_scored_later
    (now later target : Z) (gh : GitHub) (repo repo' : Repo) :
  (0 <= default 0 (repo_stargazers_count repo))%Z ->
  (0 <= default 0 (repo_forks_count repo))%Z ->
  gh_repos gh !! repo_full_name repo = Some repo' ->
  exists s p row bs ae,
    Daily.forecast now repo = Ok (s, p)
    /\ Score.score_one later target gh p = Ok (row, bs, ae)
    /\ row_stars_after_7d row = default 0%Z (repo_stargazers_count repo')
    /\ (row_breakout_actual row = 1%Z ->
        (stars_now p + 200 <= row_stars_after_7d row)%Z)
    /\ ((row_stars_after_7d row < stars_now p + 200)%Z ->
        row_breakout_actual row = 0%Z
        /\ row_brier_score row = Py.round_to (p_breakout_7d p ^ 2) 6)
    /\ ((stars_pred_low_7d p <= row_stars_after_7d row <= stars_pred_high_7d p)%Z ->
        (row_abs_error_stars row <= stars_pred_high_7d p - stars_pred_7d p)%Z).
Proof.
  intros Hs Hf Hlater.
  destruct (forecast_fields now repo Hs Hf)
    as (z & s & p & _ & Hrun & _ & _ & Hthr & _ & _ & Hlow & Hhigh).
  destruct (forecast_shape now repo s p Hrun) as (_ & _ & Hname & _).
  rewrite <- Hname in Hlater.
  exists s, p. eexists _, _, _.
  split; [exact Hrun |].
  split; [apply score_one_found; exact Hlater |].
  unfold Score.outcome.
  cbn [fst snd row_stars_after_7d row_breakout_actual row_brier_score
       row_abs_error_stars].
  set (after := default 0%Z (repo_stargazers_count repo')).
  assert (Ht : (200 <= breakout_threshold_7d p)%Z).
  { rewrite Hthr, breakout_threshold_floor. lia. }
  pose proof (band_floor (breakout_threshold_7d p)
                (Daily.clamp (Daily.logistic z) 0 1)) as Hb.
  split; [reflexivity |].
  split.
  { destruct (Z.leb_spec (breakout_threshold_7d p) (after - stars_now p));
      [lia | discriminate]. }
  split.
  { intros Hsmall.
    destruct (Z.leb_spec (breakout_threshold_7d p) (after - stars_now p)); [lia |].
    split; [reflexivity |]. unfold Score.brier. f_equal. ring. }
  intros [Hlo Hhi]. rewrite Hlow in Hlo. rewrite Hhigh in Hhi |- *. lia.
Qed.

Lemma forecast_scored_later_witness :
  exists s p row bs ae,
    Daily.forecast Example.now Example.rocket = Ok (s, p)
    /\ Score.score_one Example.later 20000 Example.github_later p = Ok (row, bs, ae)
    /\ row_stars_after_7d row = default 0%Z (repo_stargazers_count Example.rocket_later)
    /\ (row_breakout_actual row = 1%Z ->
        (stars_now p + 200 <= row_stars_after_7d row)%Z)
    /\ ((row_stars_after_7d row < stars_now p + 200)%Z ->
        row_breakout_actual row = 0%Z
        /\ row_brier_score row = Py.round_to (p_breakout_7d p ^ 2) 6)
    /\ ((stars_pred_low_7d p <= row_stars_after_7d row <= stars_pred_high_7d p)%Z ->
        (row_abs_error_stars row <= stars_pred_high_7d p - stars_pred_7d p)%Z).
Proof.
  apply (forecast_scored_later Example.now Example.later 20000
           Example.github_later Example.rocket Example.rocket_later).
  - simpl. lia.
  - simpl. lia.
  - reflexivity.
Defined.

End ScoringComposition.

Section Pipeline.
Local Open Scope R_scope.



End Pipeline.

From stdpp Require Import sorting.

(** ** [scripts/daily.py]: the notification digest

    After the two dated files, [main] ranks the batch by probability, keeps
    the first five and writes a short text about them to
    [posts/post_<today>.json].  The text is kept here as its list of lines,
    each line as the values its format string prints ([strip()] removes
    nothing from the joined text: its first and last lines are fixed and
    not blank); the post identifier [repopulse-<today>] is kept as the day. *)

Module Digest.

Inductive line : Type :=
| Title                   (* RepoPulse forecast (7-day breakout watchlist) *)
| Blank
| Method                  (* Method: reproducible baseline model ... *)
| BreakoutRule            (* Breakout = +max(200 stars, +50%) within 7 days. *)
| Entry (i : Z) (name : string) (percent stars est low high : Z)
| Link (url : string)
| Logged                  (* Daily forecasts are logged publicly, ... *)
| Hashtags.

Record Post : Type := {
  post_id : Z;
  post_date_utc : Z;
  text : list line
}.

(** [sorted(predictions, key=p_breakout_7d, reverse=True)]: the stable sort
    by decreasing key.  A prediction is placed in front of the first one
    whose probability is not larger than its own. *)
Fixpoint insert (x : Prediction) (l : list Prediction) : list Prediction :=
  match l with
  | [] => [x]
  | y :: l' =>
      if Rlt_dec (p_breakout_7d x) (p_breakout_7d y)
      then y :: insert x l'
      else x :: y :: l'
  end.

Fixpoint sorted (l : list Prediction) : list Prediction :=
  match l with
  | [] => []
  | x :: l' => insert x (sorted l')
  end.

Definition top (batch : list Prediction) : list Prediction := take 5 (sorted batch).

(** [int(round(100 * r["p_breakout_7d"]))]. *)
Definition percent (r : Prediction) : Z := Py.round (100 * p_breakout_7d r).

(** The two lines of each ranked prediction, numbered from [i]. *)
Fixpoint entries (i : Z) (rs : list Prediction) : list line :=
  match rs with
  | [] => []
  | r :: rest =>
      Entry i (full_name r) (percent r) (stars_now r) (stars_pred_7d r)
            (stars_pred_low_7d r) (stars_pred_high_7d r)
      :: Link (html_url r)
      :: entries (i + 1) rest
  end.

Definition lines (batch : list Prediction) : list line :=
  [Title; Blank; Method; BreakoutRule; Blank]
  ++ entries 1 (top batch)
  ++ [Blank; Logged; Hashtags].

Definition post_payload (today : Z) (batch : list Prediction) : Post :=
  {| post_id := today; post_date_utc := today; text := lines batch |}.

(** What [main] prints at its end. *)
Inductive message : Type :=
| WroteSnapshot (today : Z)
| WrotePredictions (today : Z)
| WrotePost (today : Z).

(** The whole of [main]: the three dated files and the three lines
    printed. *)
Definition main (now : Z) (gh : GitHub) (fs : Files) (posts : gmap Z Post)
  : Files * gmap Z Post * list message * Py.result unit :=
  let today := date now in
  match (items ← Daily.search_items gh;
         repos ← Daily.fetch_all gh items;
         Daily.forecast_all now repos) with
  | Ok (snapshot, batch) =>
      ({| snapshots := <[today := snapshot]> (snapshots fs);
          predictions := <[today := batch]> (predictions fs);
          outcomes_csv := outcomes_csv fs;
          summaries := summaries fs |},
       <[today := post_payload today batch]> posts,
       [WroteSnapshot today; WrotePredictions today; WrotePost today],
       Ok tt)
  | Raise e => (fs, posts, [], Raise e)
  end.

(** The order of the digest: a probability at least as large. *)
Definition ranks_before (x y : Prediction) : Prop :=
  (p_breakout_7d y <= p_breakout_7d x)%R.

(** The predictions of a list whose probability is [k], in their order. *)
Definition with_probability (k : R) (l : list Prediction) : list Prediction :=
  List.filter (fun r => if Req_dec_T (p_breakout_7d r) k then true else false) l.

End Digest.

Section DigestFacts.
Local Open Scope R_scope.

Lemma insert_permutation (x : Prediction) (l : list Prediction) :
  Digest.insert x l ≡ₚ x :: l.
Proof.
  induction l as [| y l IH]; cbn; [done |].
  destruct (Rlt_dec (p_breakout_7d x) (p_breakout_7d y)); [| done].
  rewrite IH. apply Permutation_swap.
Qed.

Lemma sorted_permutation (l : list Prediction) : Digest.sorted l ≡ₚ l.
Proof.
  induction l as [| x l IH]; cbn; [done |].
  by rewrite insert_permutation, IH.
Qed.

Lemma insert_sorted (x : Prediction) (l : list Prediction) :
  StronglySorted Digest.ranks_before l ->
  StronglySorted Digest.ranks_before (Digest.insert x l).
Proof.
  induction 1 as [| y l Hl IH Hy]; cbn.
  - repeat constructor.
  - destruct (Rlt_dec (p_breakout_7d x) (p_breakout_7d y)) as [Hlt | Hge].
    + constructor; [exact IH |].
      rewrite insert_permutation. constructor; [| exact Hy].
      unfold Digest.ranks_before. lra.
    + constructor; [by constructor |].
      constructor; [unfold Digest.ranks_before; lra |].
      eapply Forall_impl; [exact Hy |].
      unfold Digest.ranks_before. intros z Hz. lra.
Qed.

Lemma sorted_sorted (l : list Prediction) :
  StronglySorted Digest.ranks_before (Digest.sorted l).
Proof.
  induction l as [| x l IH]; cbn; [constructor | by apply insert_sorted].
Qed.

Lemma insert_with_probability (k : R) (x : Prediction) (l : list Prediction) :
  Digest.with_probability k (Digest.insert x l)
  = Digest.with_probability k (x :: l).
Proof.
  unfold Digest.with_probability.
  induction l as [| y l IH]; cbn; [done |].
  destruct (Rlt_dec (p_breakout_7d x) (p_breakout_7d y)) as [Hlt | Hge]; [| done].
  cbn. rewrite IH. cbn.
  destruct (Req_dec_T (p_breakout_7d x) k), (Req_dec_T (p_breakout_7d y) k);
    try reflexivity.
  lra.
Qed.

Lemma sorted_with_probability (k : R) (l : list Prediction) :
  Digest.with_probability k (Digest.sorted l) = Digest.with_probability k l.
Proof.
  induction l as [| x l IH]; cbn [Digest.sorted]; [done |].
  rewrite insert_with_probability.
  unfold Digest.with_probability in *. cbn [List.filter]. by rewrite IH.
Qed.

End DigestFacts.

Section DigestClaims.
Local Open Scope R_scope.

(** The digest shows the five most probable predictions of the batch (all
    of them when the batch has fewer), most probable first, so that the
    percentages printed never increase down the list: together with the
    predictions left out they are the batch, and none left out has a larger
    probability than one shown. *)
Theorem digest_ranks_top_five (batch : list Prediction) :
  let shown := Digest.top batch in
  let left_out := drop 5 (Digest.sorted batch) in
  length shown = Nat.min 5 (length batch)
  /\ shown ++ left_out ≡ₚ batch
  /\ StronglySorted Digest.ranks_before shown
  /\ StronglySorted (fun x y => (Digest.percent y <= Digest.percent x)%Z) shown
  /\ (forall x y, x ∈ shown -> y ∈ left_out -> p_breakout_7d y <= p_breakout_7d x).
Proof.
  intros shown left_out. unfold shown, left_out, Digest.top.
  pose proof (sorted_sorted batch) as Hs.
  rewrite <- (take_drop 5 (Digest.sorted batch)) in Hs.
  apply StronglySorted_app in Hs as (Hcross & Htop & _).
  split.
  { rewrite length_take. by rewrite (Permutation_length (sorted_permutation batch)). }
  split; [rewrite take_drop; apply sorted_permutation |].
  split; [exact Htop |].
  split; [| intros x y Hx Hy; exact (Hcross x y Hx Hy)].
  clear Hcross. induction Htop as [| x l Hl IH Hx]; constructor; [exact IH |].
  eapply Forall_impl; [exact Hx |].
  intros y Hy. apply round_mono. unfold Digest.ranks_before in Hy. lra.
Qed.

(** Ties are broken by the order of the batch: for every probability, the
    predictions shown with that probability are the first ones of the batch
    with it, in the order of the batch. *)
Theorem digest_keeps_batch_order_on_ties (k : R) (batch : list Prediction) :
  Digest.with_probability k (Digest.sorted batch) = Digest.with_probability k batch
  /\ Digest.with_probability k (Digest.top batch)
       `prefix_of` Digest.with_probability k batch.
Proof.
  split; [apply sorted_with_probability |].
  rewrite <- (sorted_with_probability k batch).
  unfold Digest.top, Digest.with_probability.
  rewrite <- (take_drop 5 (Digest.sorted batch)) at 2.
  rewrite List.filter_app. by apply prefix_app_r.
Qed.

Lemma entries_length (i : Z) (rs : list Prediction) :
  length (Digest.entries i rs) = (2 * length rs)%nat.
Proof.
  revert i. induction rs as [| r rs IH]; intros i; cbn; [done |].
  rewrite IH. lia.
Qed.

Lemma entries_lookup (rs : list Prediction) : forall (i : Z) (n : nat) (r : Prediction),
  rs !! n = Some r ->
  Digest.entries i rs !! (2 * n)%nat
    = Some (Digest.Entry (i + Z.of_nat n) (full_name r) (Digest.percent r)
              (stars_now r) (stars_pred_7d r) (stars_pred_low_7d r)
              (stars_pred_high_7d r))
  /\ Digest.entries i rs !! (2 * n + 1)%nat = Some (Digest.Link (html_url r)).
Proof.
  induction rs as [| r' rs IH]; intros i n r Hn; [done |].
  destruct n as [| n].
  - injection Hn as ->. cbn. rewrite Z.add_0_r. done.
  - cbn in Hn. destruct (IH (i + 1)%Z n r Hn) as [He Hl].
    split.
    + replace (2 * S n)%nat with (S (S (2 * n))) by lia.
      change (Digest.entries i (r' :: rs) !! S (S (2 * n)))
        with (Digest.entries (i + 1) rs !! (2 * n)%nat).
      rewrite He. do 2 f_equal. lia.
    + replace (2 * S n + 1)%nat with (S (S (2 * n + 1))) by lia.
      change (Digest.entries i (r' :: rs) !! S (S (2 * n + 1)))
        with (Digest.entries (i + 1) rs !! (2 * n + 1)%nat).
      exact Hl.
Qed.

(** The layout of the text: five fixed lines, two lines for each prediction
    shown and three fixed lines, that is [8 + 2 * min(5, n)] lines for a
    batch of [n]; the prediction of rank [i] (from 1) fills lines [3 + 2i]
    and [4 + 2i] (from 0) with its name, figures and link, and its
    percentage is between 0 and 100 when its probability is in [[0, 1]]. *)
Theorem digest_layout (batch : list Prediction) :
  length (Digest.lines batch) = (8 + 2 * Nat.min 5 (length batch))%nat
  /\ forall (n : nat) (r : Prediction),
       Digest.top batch !! n = Some r ->
       Digest.lines batch !! (5 + 2 * n)%nat
         = Some (Digest.Entry (Z.of_nat n + 1) (full_name r) (Digest.percent r)
                   (stars_now r) (stars_pred_7d r) (stars_pred_low_7d r)
                   (stars_pred_high_7d r))
       /\ Digest.lines batch !! (6 + 2 * n)%nat = Some (Digest.Link (html_url r))
       /\ (0 <= p_breakout_7d r <= 1 -> (0 <= Digest.percent r <= 100)%Z).
Proof.
  unfold Digest.lines. split.
  - rewrite !length_app, entries_length. unfold Digest.top.
    rewrite length_take, (Permutation_length (sorted_permutation batch)).
    cbn. lia.
  - intros n r Hn.
    destruct (entries_lookup (Digest.top batch) 1 n r Hn) as [He Hl].
    pose proof (lookup_lt_Some _ _ _ Hn) as Hlt.
    split.
    { rewrite lookup_app_r by (cbn; lia).
      replace (5 + 2 * n - length [Digest.Title; Digest.Blank; Digest.Method;
                                   Digest.BreakoutRule; Digest.Blank])%nat
        with (2 * n)%nat by (cbn; lia).
      rewrite lookup_app_l by (rewrite entries_length; lia).
      rewrite He. do 2 f_equal. lia. }
    split.
    { rewrite lookup_app_r by (cbn; lia).
      replace (6 + 2 * n - length [Digest.Title; Digest.Blank; Digest.Method;
                                   Digest.BreakoutRule; Digest.Blank])%nat
        with (2 * n + 1)%nat by (cbn; lia).
      rewrite lookup_app_l by (rewrite entries_length; lia). exact Hl. }
    intros [H0 H1]. unfold Digest.percent. split.
    + apply round_lower. lra.
    + apply round_upper. lra.
Qed.

(** The full run and the forecast run agree on the files and on how the
    run ends.  A failed run leaves the posts alone and prints nothing; a
    completed run stores, under its day only, the digest of the batch it
    has just written. *)
Theorem digest_run_posts_todays_batch
    (now : Z) (gh : GitHub) (fs : Files) (posts : gmap Z Digest.Post) :
  let run := Digest.main now gh fs posts in
  (run.1.1.1, run.2) = Daily.main now gh fs
  /\ (forall d, d <> date now -> run.1.1.2 !! d = posts !! d)
  /\ match run.2 with
     | Ok _ =>
         exists batch,
           predictions run.1.1.1 !! date now = Some batch
           /\ run.1.1.2 !! date now = Some (Digest.post_payload (date now) batch)
           /\ run.1.2 = [Digest.WroteSnapshot (date now);
                         Digest.WrotePredictions (date now);
                         Digest.WrotePost (date now)]
     | Raise _ => run.1.1.2 = posts /\ run.1.2 = []
     end.
Proof.
  unfold Digest.main, Daily.main.
  destruct (Daily.search_items gh ≫= _) as [[snapshot batch] | e]; cbn.
  - split; [done |]. split; [intros d Hd; by rewrite lookup_insert_ne |].
    exists batch. by rewrite !lookup_insert_eq.
  - done.
Qed.

End DigestClaims.

(** ** [scripts/trigger_make.py]

    The script posts the digest of the day to a webhook.  The sink is a
    function from the URL and the payload to the HTTP status it answers;
    what it has received is kept as a list, oldest first. *)

Module Trigger.

Inductive error : Type :=
| RuntimeError                    (* MAKE_WEBHOOK_URL is not set *)
| FileNotFoundError (today : Z)   (* Post file not found *)
| HTTPError (status : Z).         (* raise_for_status *)

(** What [main] prints. *)
Inductive message : Type :=
| Triggered (post_id : Z).

(** [raise_for_status] raises on the 4xx and 5xx statuses. *)
Definition is_error_status (status : Z) : bool :=
  ((400 <=? status) && (status <? 600))%Z.

(** [main]: the requests the sink has received, what was printed, and how
    the run ended.  [url] is the environment variable ([None] when unset);
    an empty string counts as unset. *)
Definition main (url : option string) (now : Z) (posts : gmap Z Digest.Post)
    (sink : string -> Digest.Post -> Z) (received : list (string * Digest.Post))
  : list (string * Digest.Post) * list message * (error + unit) :=
  match url with
  | None => (received, [], inl RuntimeError)
  | Some u =>
      if String.eqb u "" then (received, [], inl RuntimeError)
      else
        let today := date now in
        match posts !! today with
        | None => (received, [], inl (FileNotFoundError today))
        | Some payload =>
            let status := sink u payload in
            let received' := received ++ [(u, payload)] in
            if is_error_status status
            then (received', [], inl (HTTPError status))
            else (received', [Triggered (Digest.post_id payload)], inr tt)
        end
  end.

End Trigger.

Section TriggerClaims.
Local Open Scope R_scope.

(** The script sends at most one request, and only the stored payload of
    the current day to a non-empty configured URL: in every case the sink
    has received either nothing new or exactly that one request; it
    receives nothing when the URL is unset or empty, or when the day has no
    post; and a run that ends normally has sent the request, got a status
    outside 400..599 and printed the identifier of the post. *)
Theorem trigger_sends_only_todays_post
    (url : option string) (now : Z) (posts : gmap Z Digest.Post)
    (sink : string -> Digest.Post -> Z) (received : list (string * Digest.Post)) :
  let run := Trigger.main url now posts sink received in
  (run.1.1 = received
   \/ exists u payload,
        url = Some u /\ u <> ""%string
        /\ posts !! date now = Some payload
        /\ run.1.1 = received ++ [(u, payload)])
  /\ (url = None \/ url = Some ""%string ->
      run = (received, [], inl Trigger.RuntimeError))
  /\ (posts !! date now = None -> run.1.1 = received /\ run.1.2 = [])
  /\ (run.2 = inr tt ->
      exists u payload,
        url = Some u
        /\ posts !! date now = Some payload
        /\ run.1.1 = received ++ [(u, payload)]
        /\ ~ (400 <= sink u payload < 600)%Z
        /\ run.1.2 = [Trigger.Triggered (Digest.post_id payload)]).
Proof.
  unfold Trigger.main.
  destruct url as [u |]; cbn.
  2: { split; [by left |]. split; [done |]. split; [done |]. discriminate. }
  destruct (String.eqb_spec u "") as [-> | Hne]; cbn.
  { split; [by left |]. split; [done |]. split; [done |]. discriminate. }
  destruct (posts !! date now) as [payload |] eqn:Hpost; cbn.
  2: { split; [by left |]. split; [| split; [done | discriminate]].
       intros [H | H]; [discriminate | congruence]. }
  unfold Trigger.is_error_status.
  destruct (Z.leb_spec 400 (sink u payload)), (Z.ltb_spec (sink u payload) 600); cbn.
  all: split; [right; by exists u, payload |].
  all: split; [intros [Hu | Hu]; [discriminate | congruence] |].
  all: split; [discriminate |].
  all: try discriminate.
  all: intros _; exists u, payload; repeat split; try done; lia.
Qed.

End TriggerClaims.

Section Delivery.
Local Open Scope R_scope.



End Delivery.

Section Threshold.
Local Open Scope R_scope.

(** The threshold as a function of the star count: it never decreases, it
    is the absolute floor of 200 exactly up to 401 stars, and from 402
    stars on it is half the count rounded down, so that a gain that meets
    it is at most half a star short of a 50% gain. *)
Theorem threshold_shape (stars1 stars2 : Z) :
  (stars1 <= stars2)%Z ->
  (Daily.breakout_threshold stars1 <= Daily.breakout_threshold stars2)%Z
  /\ (Daily.breakout_threshold stars1 = 200%Z <-> (stars1 <= 401)%Z)
  /\ ((402 <= stars1)%Z ->
      (2 * Daily.breakout_threshold stars1 <= stars1
       <= 2 * Daily.breakout_threshold stars1 + 1)%Z).
Proof.
  intros Hle. rewrite !breakout_threshold_floor.
  pose proof (Z.div_le_mono stars1 stars2 2 ltac:(lia) Hle) as Hdiv.
  pose proof (Z.div_mod stars1 2 ltac:(lia)) as Hdm.
  pose proof (Z.mod_pos_bound stars1 2 ltac:(lia)) as Hm.
  split; [lia |]. split; [split; intros; lia |]. intros Hbig. lia.
Qed.

Lemma threshold_shape_witness :
  (Daily.breakout_threshold 401 <= Daily.breakout_threshold 402)%Z
  /\ (Daily.breakout_threshold 401 = 200%Z <-> (401 <= 401)%Z)
  /\ ((402 <= 401)%Z ->
      (2 * Daily.breakout_threshold 401 <= 401
       <= 2 * Daily.breakout_threshold 401 + 1)%Z).
Proof.
  apply (threshold_shape 401 402). lia.
Defined.

End Threshold.
